(** * capi2mapi: conversion of Cluster API PowerVS machines to MAPI machines

    A shallow embedding of the Go package [capi2mapi] (PowerVS part): the
    resource reference converters, [toProviderSpec], the payload encoder
    [rawExtensionFromPowerVSProviderSpec], and the two assemblers
    [ToMachine] and [ToMachineSet].

    Conventions of the embedding:
    - a Go pointer [*T] is [option T], [None] being [nil];
    - a Go slice is a [list], the nil slice being [[]];
    - a Go [map[string]string] is a [gmap string string], the nil map being [∅];
    - a call that can dereference a nil pointer returns an [outcome], whose
      [Panic] stands for the run-time panic;
    - a Go [(value, error)] pair keeps both components, the error being an
      [option]. *)

From Stdlib Require Import ZArith.
From stdpp Require Import base option list strings gmap.

Local Open Scope string_scope.

(** ** Outcomes: a returned value or a run-time panic *)

Inductive outcome (A : Type) : Type :=
| Ret (a : A)
| Panic.
Arguments Ret {A} a.
Arguments Panic {A}.

#[global] Instance outcome_ret : MRet outcome := fun A a => Ret a.
#[global] Instance outcome_bind : MBind outcome := fun A B k o =>
  match o with
  | Ret a => k a
  | Panic => Panic
  end.

(** [p != nil] and [p == nil] on a pointer [p]. *)
Definition not_nil {A : Type} (p : option A) : bool :=
  match p with
  | Some _ => true
  | None => false
  end.

Definition is_nil {A : Type} (p : option A) : bool := negb (not_nil p).

(** [*p] on a pointer [p]. *)
Definition deref {A : Type} (p : option A) : outcome A :=
  match p with
  | Some a => Ret a
  | None => Panic
  end.

Definition returns {A : Type} (o : outcome A) : bool :=
  match o with
  | Ret _ => true
  | Panic => false
  end.

(** [ptr.Deref(p, def)] of k8s.io/utils/ptr. *)
Module ptr.
Definition Deref {A : Type} (p : option A) (def : A) : A :=
  match p with
  | Some a => a
  | None => def
  end.
End ptr.

(** ** The API types, reduced to the fields the conversion reads or writes *)

Module metav1.
Module TypeMeta.
Record t := { Kind : string; APIVersion : string }.
End TypeMeta.
Module ObjectMeta.
Record t := {
  Name : string;
  Namespace : string;
  Labels : gmap string string;
  Annotations : gmap string string
}.
Definition zero : t :=
  {| Name := ""; Namespace := ""; Labels := ∅; Annotations := ∅ |}.
End ObjectMeta.
End metav1.

Module corev1.
Module LocalObjectReference.
Record t := { Name : string }.
End LocalObjectReference.
End corev1.

Module intstr.
Module IntOrString.
Record t := { Type_ : Z; IntVal : Z; StrVal : string }.
End IntOrString.
End intstr.

Module runtime.
Module RawExtension.
Record t := { Raw : list Byte.byte }.
(** [runtime.RawExtension{}] *)
Definition zero : t := {| Raw := [] |}.
End RawExtension.
End runtime.

(** sigs.k8s.io/cluster-api/api/v1beta1 *)
Module capiv1.
Module Bootstrap.
Record t := { DataSecretName : option string }.
End Bootstrap.
Module MachineSpec.
Record t := {
  ClusterName : string;
  Bootstrap : Bootstrap.t;
  ProviderID : option string
}.
End MachineSpec.
Module Machine.
Record t := { ObjectMeta : metav1.ObjectMeta.t; Spec : MachineSpec.t }.
End Machine.
Module MachineTemplateSpec.
Record t := { ObjectMeta : metav1.ObjectMeta.t; Spec : MachineSpec.t }.
End MachineTemplateSpec.
Module MachineSetSpec.
Record t := {
  ClusterName : string;
  Replicas : option Z;
  Template : MachineTemplateSpec.t
}.
End MachineSetSpec.
Module MachineSet.
Record t := { ObjectMeta : metav1.ObjectMeta.t; Spec : MachineSetSpec.t }.
End MachineSet.
End capiv1.

(** sigs.k8s.io/cluster-api-provider-ibmcloud/api/v1beta2 *)
Module capibmv1.
Module IBMPowerVSResourceReference.
Record t := {
  ID : option string;
  Name : option string;
  RegEx : option string
}.
End IBMPowerVSResourceReference.
Module IBMPowerVSMachineSpec.
Record t := {
  ServiceInstanceID : string;
  ServiceInstance : option IBMPowerVSResourceReference.t;
  SSHKey : string;
  Image : option IBMPowerVSResourceReference.t;
  ImageRef : option corev1.LocalObjectReference.t;
  SystemType : string;
  ProcessorType : string;
  Processors : intstr.IntOrString.t;
  MemoryGiB : Z;
  Network : IBMPowerVSResourceReference.t
}.
End IBMPowerVSMachineSpec.
Module IBMPowerVSMachine.
Record t := {
  ObjectMeta : metav1.ObjectMeta.t;
  Spec : IBMPowerVSMachineSpec.t
}.
End IBMPowerVSMachine.
Module IBMPowerVSMachineTemplateResource.
Record t := { Spec : IBMPowerVSMachineSpec.t }.
End IBMPowerVSMachineTemplateResource.
Module IBMPowerVSMachineTemplateSpec.
Record t := { Template : IBMPowerVSMachineTemplateResource.t }.
End IBMPowerVSMachineTemplateSpec.
Module IBMPowerVSMachineTemplate.
Record t := {
  ObjectMeta : metav1.ObjectMeta.t;
  Spec : IBMPowerVSMachineTemplateSpec.t
}.
End IBMPowerVSMachineTemplate.
Module IBMPowerVSCluster.
Record t := { ObjectMeta : metav1.ObjectMeta.t }.
End IBMPowerVSCluster.
End capibmv1.

(** github.com/openshift/api/machine/v1 *)
Module mapiv1.
(** [PowerVSResourceType] is a string type; its zero value is [""]. *)
Definition PowerVSResourceType := string.
Definition PowerVSResourceTypeID : PowerVSResourceType := "ID".
Definition PowerVSResourceTypeName : PowerVSResourceType := "Name".
Definition PowerVSResourceTypeRegEx : PowerVSResourceType := "RegEx".

Module PowerVSResource.
Record t := {
  Type_ : PowerVSResourceType;
  ID : option string;
  Name : option string;
  RegEx : option string
}.
(** [var r mapiv1.PowerVSResource] *)
Definition zero : t :=
  {| Type_ := ""; ID := None; Name := None; RegEx := None |}.
(** Field assignments [r.Type = v], [r.ID = v], ... *)
Definition set_Type (v : PowerVSResourceType) (r : t) : t :=
  {| Type_ := v; ID := ID r; Name := Name r; RegEx := RegEx r |}.
Definition set_ID (v : option string) (r : t) : t :=
  {| Type_ := Type_ r; ID := v; Name := Name r; RegEx := RegEx r |}.
Definition set_Name (v : option string) (r : t) : t :=
  {| Type_ := Type_ r; ID := ID r; Name := v; RegEx := RegEx r |}.
Definition set_RegEx (v : option string) (r : t) : t :=
  {| Type_ := Type_ r; ID := ID r; Name := Name r; RegEx := v |}.
End PowerVSResource.
Module PowerVSSecretReference.
Record t := { Name : string }.
End PowerVSSecretReference.
Module PowerVSMachineProviderConfig.
Record t := {
  TypeMeta : metav1.TypeMeta.t;
  ServiceInstance : PowerVSResource.t;
  Image : PowerVSResource.t;
  Network : PowerVSResource.t;
  KeyPairName : string;
  SystemType : string;
  ProcessorType : string;
  Processors : intstr.IntOrString.t;
  MemoryGiB : Z;
  UserDataSecret : option PowerVSSecretReference.t;
  CredentialsSecret : option PowerVSSecretReference.t
}.
(** [c.UserDataSecret = v] *)
Definition set_UserDataSecret (v : option PowerVSSecretReference.t) (c : t) : t :=
  {| TypeMeta := TypeMeta c; ServiceInstance := ServiceInstance c;
     Image := Image c; Network := Network c; KeyPairName := KeyPairName c;
     SystemType := SystemType c; ProcessorType := ProcessorType c;
     Processors := Processors c; MemoryGiB := MemoryGiB c;
     UserDataSecret := v; CredentialsSecret := CredentialsSecret c |}.
End PowerVSMachineProviderConfig.
End mapiv1.

(** github.com/openshift/api/machine/v1beta1 *)
Module mapiv1beta1.
Module ProviderSpec.
Record t := { Value : option runtime.RawExtension.t }.
End ProviderSpec.
Module MachineSpec.
Record t := {
  ObjectMeta : metav1.ObjectMeta.t;
  ProviderSpec : ProviderSpec.t;
  ProviderID : option string
}.
End MachineSpec.
Module Machine.
Record t := { ObjectMeta : metav1.ObjectMeta.t; Spec : MachineSpec.t }.
(** [m.Spec.ProviderSpec.Value = v] *)
Definition set_Spec_ProviderSpec_Value (v : option runtime.RawExtension.t) (m : t) : t :=
  {| ObjectMeta := ObjectMeta m;
     Spec :=
       {| MachineSpec.ObjectMeta := MachineSpec.ObjectMeta (Spec m);
          MachineSpec.ProviderSpec := {| ProviderSpec.Value := v |};
          MachineSpec.ProviderID := MachineSpec.ProviderID (Spec m) |} |}.
End Machine.
Module MachineTemplateSpec.
Record t := { ObjectMeta : metav1.ObjectMeta.t; Spec : MachineSpec.t }.
End MachineTemplateSpec.
Module MachineSetSpec.
Record t := { Replicas : option Z; Template : MachineTemplateSpec.t }.
End MachineSetSpec.
Module MachineSet.
Record t := { ObjectMeta : metav1.ObjectMeta.t; Spec : MachineSetSpec.t }.
Definition set_Template (v : MachineTemplateSpec.t) (ms : t) : t :=
  {| ObjectMeta := ObjectMeta ms;
     Spec := {| MachineSetSpec.Replicas := MachineSetSpec.Replicas (Spec ms);
                MachineSetSpec.Template := v |} |}.
(** [ms.Spec.Template.Spec = v] *)
Definition set_Spec_Template_Spec (v : MachineSpec.t) (ms : t) : t :=
  set_Template
    {| MachineTemplateSpec.ObjectMeta :=
         MachineTemplateSpec.ObjectMeta (MachineSetSpec.Template (Spec ms));
       MachineTemplateSpec.Spec := v |} ms.
(** [ms.Spec.Template.ObjectMeta.Annotations = v] *)
Definition set_Spec_Template_Annotations (v : gmap string string) (ms : t) : t :=
  let tmpl := MachineSetSpec.Template (Spec ms) in
  let om := MachineTemplateSpec.ObjectMeta tmpl in
  set_Template
    {| MachineTemplateSpec.ObjectMeta :=
         {| metav1.ObjectMeta.Name := metav1.ObjectMeta.Name om;
            metav1.ObjectMeta.Namespace := metav1.ObjectMeta.Namespace om;
            metav1.ObjectMeta.Labels := metav1.ObjectMeta.Labels om;
            metav1.ObjectMeta.Annotations := v |};
       MachineTemplateSpec.Spec := MachineTemplateSpec.Spec tmpl |} ms.
(** [ms.Spec.Template.ObjectMeta.Labels = v] *)
Definition set_Spec_Template_Labels (v : gmap string string) (ms : t) : t :=
  let tmpl := MachineSetSpec.Template (Spec ms) in
  let om := MachineTemplateSpec.ObjectMeta tmpl in
  set_Template
    {| MachineTemplateSpec.ObjectMeta :=
         {| metav1.ObjectMeta.Name := metav1.ObjectMeta.Name om;
            metav1.ObjectMeta.Namespace := metav1.ObjectMeta.Namespace om;
            metav1.ObjectMeta.Labels := v;
            metav1.ObjectMeta.Annotations := metav1.ObjectMeta.Annotations om |};
       MachineTemplateSpec.Spec := MachineTemplateSpec.Spec tmpl |} ms.
End MachineSet.
End mapiv1beta1.

(** ** Errors *)

(** k8s.io/apimachinery/pkg/util/validation/field *)
Module field.
(** A path is built by [NewPath] and extended by [Child]. *)
Inductive Path : Type :=
| NewPath (name : string)
| Child (parent : Path) (name : string).

Fixpoint String (p : Path) : string :=
  match p with
  | NewPath name => name
  | Child parent name => String parent ++ "." ++ name
  end.

Inductive ErrorType : Type :=
| ErrorTypeInvalid.

(** The values this package hands to [field.Invalid] as [BadValue]:
    a resource reference by value (network) or by pointer (image,
    service instance). *)
Inductive BadValue : Type :=
| ReferenceValue (r : capibmv1.IBMPowerVSResourceReference.t)
| ReferencePointer (p : option capibmv1.IBMPowerVSResourceReference.t).

Module Error.
Record t := {
  Type_ : ErrorType;
  Field : string;
  BadValue_ : BadValue;
  Detail : string
}.
End Error.

Definition ErrorList := list Error.t.

Definition Invalid (fldPath : Path) (value : BadValue) (detail : string) : Error.t :=
  {| Error.Type_ := ErrorTypeInvalid;
     Error.Field := String fldPath;
     Error.BadValue_ := value;
     Error.Detail := detail |}.
End field.

(** The values of Go's [error] interface that flow through the package. *)
#[warnings="-register-all"]
Inductive error : Type :=
| errors_New (msg : string)                    (* errors.New(msg) *)
| fmt_Errorf_w (prefix : string) (err : error) (* fmt.Errorf(prefix + ": %w", err) *)
| field_Error (e : field.Error.t)              (* a *field.Error used as an error *)
| aggregate (errs : list error).               (* utilerrors.aggregate *)

(** [utilerrors.NewAggregate]: nil for an empty list. The lists built here
    hold no nil entry. *)
Definition NewAggregate (errlist : list error) : option error :=
  match errlist with
  | [] => None
  | _ :: _ => Some (aggregate errlist)
  end.

Definition errCAPIMachinePowerVSMachinePowerVSClusterCannotBeNil : error :=
  errors_New "provided Machine, IBMPowerVSMachine and IBMPowerVSCluster can not be nil".

Definition errCAPIMachineSetPowerVSMachineTemplatePowerVSClusterCannotBeNil : error :=
  errors_New "provided MachineSet, IBMPowerVSMachineTemplate and IBMPowerVSCluster can not be nil".

(** [if err != nil { errors = append(errors, err) }] *)
Definition append_if_err {E : Type} (errors : list E) (err : option E) : list E :=
  match err with
  | Some e => (errors ++ [e])%list
  | None => errors
  end.

(** ** Resource reference converters *)

Import capibmv1 mapiv1.

Definition convertPowerVSNetworkToMAPI (fldPath : field.Path)
    (network : IBMPowerVSResourceReference.t)
  : PowerVSResource.t * option field.Error.t :=
  let networkResource := PowerVSResource.zero in
  if not_nil (IBMPowerVSResourceReference.ID network) then
    let networkResource := PowerVSResource.set_Type PowerVSResourceTypeID networkResource in
    let networkResource :=
      PowerVSResource.set_ID (IBMPowerVSResourceReference.ID network) networkResource in
    (networkResource, None)
  else if not_nil (IBMPowerVSResourceReference.Name network) then
    let networkResource := PowerVSResource.set_Type PowerVSResourceTypeName networkResource in
    let networkResource :=
      PowerVSResource.set_Name (IBMPowerVSResourceReference.Name network) networkResource in
    (networkResource, None)
  else if not_nil (IBMPowerVSResourceReference.RegEx network) then
    let networkResource := PowerVSResource.set_Type PowerVSResourceTypeRegEx networkResource in
    let networkResource :=
      PowerVSResource.set_RegEx (IBMPowerVSResourceReference.RegEx network) networkResource in
    (networkResource, None)
  else
    (networkResource,
     Some (field.Invalid fldPath (field.ReferenceValue network)
             "unable to convert network to MAPI")).

(** The last two statements dereference [imageRef] without a nil check:
    [&imageRef.Name] panics on a nil [imageRef]. *)
Definition convertPowerVSImageToMAPI (fldPath : field.Path)
    (image : option IBMPowerVSResourceReference.t)
    (imageRef : option corev1.LocalObjectReference.t)
  : outcome (PowerVSResource.t * option field.Error.t) :=
  if is_nil image && is_nil imageRef then
    Ret (PowerVSResource.zero,
         Some (field.Invalid fldPath (field.ReferencePointer image)
                 "unable to convert image, image and imageref is nil"))
  else
    let imageResource := PowerVSResource.zero in
    let fallback :=
      let imageResource := PowerVSResource.set_Type PowerVSResourceTypeName imageResource in
      imageRef' ← deref imageRef;
      let imageResource :=
        PowerVSResource.set_Name (Some (corev1.LocalObjectReference.Name imageRef'))
          imageResource in
      Ret (imageResource, None) in
    match image with
    | Some image' =>
        if not_nil (IBMPowerVSResourceReference.ID image') then
          let imageResource := PowerVSResource.set_Type PowerVSResourceTypeID imageResource in
          let imageResource :=
            PowerVSResource.set_ID (IBMPowerVSResourceReference.ID image') imageResource in
          Ret (imageResource, None)
        else if not_nil (IBMPowerVSResourceReference.Name image') then
          let imageResource := PowerVSResource.set_Type PowerVSResourceTypeName imageResource in
          let imageResource :=
            PowerVSResource.set_Name (IBMPowerVSResourceReference.Name image') imageResource in
          Ret (imageResource, None)
        else if not_nil (IBMPowerVSResourceReference.RegEx image') then
          let imageResource := PowerVSResource.set_Type PowerVSResourceTypeRegEx imageResource in
          let imageResource :=
            PowerVSResource.set_RegEx (IBMPowerVSResourceReference.RegEx image') imageResource in
          Ret (imageResource, None)
        else fallback
    | None => fallback
    end.

Definition convertPowerVSServiceInstanceToMAPI (fldPath : field.Path)
    (serviceInstanceID : string)
    (serviceInstance : option IBMPowerVSResourceReference.t)
  : PowerVSResource.t * option field.Error.t :=
  let serviceInstanceResource := PowerVSResource.zero in
  if negb (String.eqb serviceInstanceID "") then
    let serviceInstanceResource :=
      PowerVSResource.set_Type PowerVSResourceTypeID serviceInstanceResource in
    let serviceInstanceResource :=
      PowerVSResource.set_ID (Some serviceInstanceID) serviceInstanceResource in
    (serviceInstanceResource, None)
  else
    match serviceInstance with
    | None =>
        (serviceInstanceResource,
         Some (field.Invalid fldPath (field.ReferencePointer serviceInstance)
                 "unable to convert service instance, service instance is nil"))
    | Some serviceInstance' =>
        if not_nil (IBMPowerVSResourceReference.ID serviceInstance') then
          let serviceInstanceResource :=
            PowerVSResource.set_Type PowerVSResourceTypeID serviceInstanceResource in
          let serviceInstanceResource :=
            PowerVSResource.set_ID (IBMPowerVSResourceReference.ID serviceInstance')
              serviceInstanceResource in
          (serviceInstanceResource, None)
        else if not_nil (IBMPowerVSResourceReference.Name serviceInstance') then
          let serviceInstanceResource :=
            PowerVSResource.set_Type PowerVSResourceTypeName serviceInstanceResource in
          let serviceInstanceResource :=
            PowerVSResource.set_Name (IBMPowerVSResourceReference.Name serviceInstance')
              serviceInstanceResource in
          (serviceInstanceResource, None)
        else if not_nil (IBMPowerVSResourceReference.RegEx serviceInstance') then
          let serviceInstanceResource :=
            PowerVSResource.set_Type PowerVSResourceTypeRegEx serviceInstanceResource in
          let serviceInstanceResource :=
            PowerVSResource.set_RegEx (IBMPowerVSResourceReference.RegEx serviceInstance')
              serviceInstanceResource in
          (serviceInstanceResource, None)
        else
          (serviceInstanceResource,
           Some (field.Invalid fldPath (field.ReferencePointer serviceInstance)
                   "unable to convert service instance to MAPI"))
    end.

(** ** The input wrappers *)

Module machineAndPowerVSMachineAndPowerVSCluster.
Record t := {
  machine : option capiv1.Machine.t;
  powerVSMachine : option IBMPowerVSMachine.t;
  powerVSCluster : option IBMPowerVSCluster.t
}.
End machineAndPowerVSMachineAndPowerVSCluster.

Module machineSetAndPowerVSMachineTemplateAndPowerVSCluster.
Record t := {
  machineSet : option capiv1.MachineSet.t;
  template : option IBMPowerVSMachineTemplate.t;
  powerVSCluster : option IBMPowerVSCluster.t;
  (* the embedded *machineAndPowerVSMachineAndPowerVSCluster *)
  embedded : option machineAndPowerVSMachineAndPowerVSCluster.t
}.
End machineSetAndPowerVSMachineTemplateAndPowerVSCluster.

Definition FromMachineAndPowerVSMachineAndPowerVSCluster
    (m : option capiv1.Machine.t) (pm : option IBMPowerVSMachine.t)
    (pc : option IBMPowerVSCluster.t)
  : machineAndPowerVSMachineAndPowerVSCluster.t :=
  {| machineAndPowerVSMachineAndPowerVSCluster.machine := m;
     machineAndPowerVSMachineAndPowerVSCluster.powerVSMachine := pm;
     machineAndPowerVSMachineAndPowerVSCluster.powerVSCluster := pc |}.

(** The struct literal of the set constructor, once [ms] and [mts] have been
    dereferenced to [ms'] and [mts']. *)
Definition machineSetWrapper
    (ms' : capiv1.MachineSet.t) (mts' : IBMPowerVSMachineTemplate.t)
    (pc : option IBMPowerVSCluster.t)
  : machineSetAndPowerVSMachineTemplateAndPowerVSCluster.t :=
  let tmpl := capiv1.MachineSetSpec.Template (capiv1.MachineSet.Spec ms') in
  {| machineSetAndPowerVSMachineTemplateAndPowerVSCluster.machineSet := Some ms';
     machineSetAndPowerVSMachineTemplateAndPowerVSCluster.template := Some mts';
     machineSetAndPowerVSMachineTemplateAndPowerVSCluster.powerVSCluster := pc;
     machineSetAndPowerVSMachineTemplateAndPowerVSCluster.embedded :=
       Some
         {| machineAndPowerVSMachineAndPowerVSCluster.machine :=
              Some
                {| capiv1.Machine.ObjectMeta :=
                     {| metav1.ObjectMeta.Name := "";
                        metav1.ObjectMeta.Namespace := "";
                        metav1.ObjectMeta.Labels :=
                          metav1.ObjectMeta.Labels
                            (capiv1.MachineTemplateSpec.ObjectMeta tmpl);
                        metav1.ObjectMeta.Annotations :=
                          metav1.ObjectMeta.Annotations
                            (capiv1.MachineTemplateSpec.ObjectMeta tmpl) |};
                   capiv1.Machine.Spec := capiv1.MachineTemplateSpec.Spec tmpl |};
            machineAndPowerVSMachineAndPowerVSCluster.powerVSMachine :=
              Some
                {| IBMPowerVSMachine.ObjectMeta := metav1.ObjectMeta.zero;
                   IBMPowerVSMachine.Spec :=
                     IBMPowerVSMachineTemplateResource.Spec
                       (IBMPowerVSMachineTemplateSpec.Template
                          (IBMPowerVSMachineTemplate.Spec mts')) |};
            machineAndPowerVSMachineAndPowerVSCluster.powerVSCluster := pc |} |}.

(** The constructor reads [ms.Spec] and [mts.Spec] through the pointers it
    is given. *)
Definition FromMachineSetAndPowerVSMachineTemplateAndPowerVSCluster
    (ms : option capiv1.MachineSet.t) (mts : option IBMPowerVSMachineTemplate.t)
    (pc : option IBMPowerVSCluster.t)
  : outcome machineSetAndPowerVSMachineTemplateAndPowerVSCluster.t :=
  ms' ← deref ms;
  mts' ← deref mts;
  Ret (machineSetWrapper ms' mts' pc).

(** ** The field mapper *)

(** The local variables of [toProviderSpec] when it reaches its last
    [return] statement. *)
Module toProviderSpec_locals.
Record t := {
  warnings : list string;
  errors : field.ErrorList;
  mapiProviderConfig : PowerVSMachineProviderConfig.t
}.
End toProviderSpec_locals.

(** The body of [toProviderSpec] after its nil check, up to (not including)
    the final [return]. *)
Definition toProviderSpec_body (machine : capiv1.Machine.t)
    (powerVSMachine : IBMPowerVSMachine.t) : outcome toProviderSpec_locals.t :=
  let spec := IBMPowerVSMachine.Spec powerVSMachine in
  let warnings : list string := [] in
  let errors : field.ErrorList := [] in
  let fldPath := field.NewPath "spec" in
  let '(serviceInstance, err) :=
    convertPowerVSServiceInstanceToMAPI (field.Child fldPath "serviceInstance")
      (IBMPowerVSMachineSpec.ServiceInstanceID spec)
      (IBMPowerVSMachineSpec.ServiceInstance spec) in
  let errors := append_if_err errors err in
  '(image, err) ← convertPowerVSImageToMAPI (field.Child fldPath "image")
      (IBMPowerVSMachineSpec.Image spec) (IBMPowerVSMachineSpec.ImageRef spec);
  let errors := append_if_err errors err in
  let '(network, err) :=
    convertPowerVSNetworkToMAPI (field.Child fldPath "network")
      (IBMPowerVSMachineSpec.Network spec) in
  let errors := append_if_err errors err in
  let mapiProviderConfig :=
    {| PowerVSMachineProviderConfig.TypeMeta :=
         {| metav1.TypeMeta.Kind := "PowerVSMachineProviderConfig";
            metav1.TypeMeta.APIVersion := "machine.openshift.io/v1" |};
       PowerVSMachineProviderConfig.ServiceInstance := serviceInstance;
       PowerVSMachineProviderConfig.Image := image;
       PowerVSMachineProviderConfig.Network := network;
       PowerVSMachineProviderConfig.KeyPairName := IBMPowerVSMachineSpec.SSHKey spec;
       PowerVSMachineProviderConfig.SystemType := IBMPowerVSMachineSpec.SystemType spec;
       PowerVSMachineProviderConfig.ProcessorType :=
         IBMPowerVSMachineSpec.ProcessorType spec;
       PowerVSMachineProviderConfig.Processors := IBMPowerVSMachineSpec.Processors spec;
       PowerVSMachineProviderConfig.MemoryGiB := IBMPowerVSMachineSpec.MemoryGiB spec;
       PowerVSMachineProviderConfig.UserDataSecret := None;
       PowerVSMachineProviderConfig.CredentialsSecret := None |} in
  let userDataSecretName :=
    ptr.Deref
      (capiv1.Bootstrap.DataSecretName
         (capiv1.MachineSpec.Bootstrap (capiv1.Machine.Spec machine))) "" in
  let mapiProviderConfig :=
    if negb (String.eqb userDataSecretName "") then
      PowerVSMachineProviderConfig.set_UserDataSecret
        (Some {| PowerVSSecretReference.Name := userDataSecretName |})
        mapiProviderConfig
    else mapiProviderConfig in
  Ret {| toProviderSpec_locals.warnings := warnings;
         toProviderSpec_locals.errors := errors;
         toProviderSpec_locals.mapiProviderConfig := mapiProviderConfig |}.

(** [toProviderSpec]: its last statement is
    [return &mapiProviderConfig, warnings, nil]; the local [errors] is not
    part of what is returned. *)
Definition toProviderSpec (m : machineAndPowerVSMachineAndPowerVSCluster.t)
  : outcome (option PowerVSMachineProviderConfig.t * list string * option error) :=
  match machineAndPowerVSMachineAndPowerVSCluster.machine m,
        machineAndPowerVSMachineAndPowerVSCluster.powerVSMachine m,
        machineAndPowerVSMachineAndPowerVSCluster.powerVSCluster m with
  | Some machine, Some powerVSMachine, Some _ =>
      locals ← toProviderSpec_body machine powerVSMachine;
      Ret (Some (toProviderSpec_locals.mapiProviderConfig locals),
           toProviderSpec_locals.warnings locals,
           None)
  | _, _, _ =>
      Ret (None, [], Some errCAPIMachinePowerVSMachinePowerVSClusterCannotBeNil)
  end.

(** ** The payload encoder and the assemblers *)

Section Assemblers.

(** [json.Marshal] on a provider config: the bytes and the error it
    returns. *)
Variable json_Marshal : PowerVSMachineProviderConfig.t -> list Byte.byte * option error.

(** The generic metadata converters of this package, which live in another
    file: each returns a pointer and an error, and may panic. *)
Variable fromCAPIMachineToMAPIMachine :
  capiv1.Machine.t -> outcome (option mapiv1beta1.Machine.t * option error).
Variable fromCAPIMachineSetToMAPIMachineSet :
  capiv1.MachineSet.t -> outcome (option mapiv1beta1.MachineSet.t * option error).

Definition rawExtensionFromPowerVSProviderSpec
    (spec : option PowerVSMachineProviderConfig.t)
  : option runtime.RawExtension.t * option error :=
  match spec with
  | None => (Some runtime.RawExtension.zero, None)
  | Some spec' =>
      let '(rawBytes, err) := json_Marshal spec' in
      match err with
      | Some err' => (None, Some (fmt_Errorf_w "error marshalling providerSpec" err'))
      | None => (Some {| runtime.RawExtension.Raw := rawBytes |}, None)
      end
  end.

Definition ToMachine (m : machineAndPowerVSMachineAndPowerVSCluster.t)
  : outcome (option mapiv1beta1.Machine.t * list string * option error) :=
  match machineAndPowerVSMachineAndPowerVSCluster.machine m,
        machineAndPowerVSMachineAndPowerVSCluster.powerVSMachine m,
        machineAndPowerVSMachineAndPowerVSCluster.powerVSCluster m with
  | Some machine, Some _, Some _ =>
      let errors : list error := [] in
      let warnings : list string := [] in
      '(mapiPowerVSSpec, warn, err) ← toProviderSpec m;
      let errors := append_if_err errors err in
      let warnings := (warnings ++ warn)%list in
      '(mapiMachine, err) ← fromCAPIMachineToMAPIMachine machine;
      let errors := append_if_err errors err in
      let '(powerVSRawExt, err) := rawExtensionFromPowerVSProviderSpec mapiPowerVSSpec in
      let errors := append_if_err errors err in
      mapiMachine' ← deref mapiMachine;
      let mapiMachine' :=
        mapiv1beta1.Machine.set_Spec_ProviderSpec_Value powerVSRawExt mapiMachine' in
      if (0 <? length errors)%nat then
        Ret (None, warnings, NewAggregate errors)
      else
        Ret (Some mapiMachine', warnings, None)
  | _, _, _ =>
      Ret (None, [], Some errCAPIMachinePowerVSMachinePowerVSClusterCannotBeNil)
  end.

Definition ToMachineSet (m : machineSetAndPowerVSMachineTemplateAndPowerVSCluster.t)
  : outcome (option mapiv1beta1.MachineSet.t * list string * option error) :=
  match machineSetAndPowerVSMachineTemplateAndPowerVSCluster.machineSet m,
        machineSetAndPowerVSMachineTemplateAndPowerVSCluster.template m,
        machineSetAndPowerVSMachineTemplateAndPowerVSCluster.powerVSCluster m,
        machineSetAndPowerVSMachineTemplateAndPowerVSCluster.embedded m with
  | Some machineSet, Some _, Some _, Some inner =>
      let errors : list error := [] in
      let warnings : list string := [] in
      '(mapiPowerVSMachine, warn, err) ← ToMachine inner;
      let errors := append_if_err errors err in
      let warnings := (warnings ++ warn)%list in
      '(mapiMachineSet, err) ← fromCAPIMachineSetToMAPIMachineSet machineSet;
      let errors := append_if_err errors err in
      mapiMachineSet' ← deref mapiMachineSet;
      mapiPowerVSMachine' ← deref mapiPowerVSMachine;
      let mapiMachineSet' :=
        mapiv1beta1.MachineSet.set_Spec_Template_Spec
          (mapiv1beta1.Machine.Spec mapiPowerVSMachine') mapiMachineSet' in
      let mapiMachineSet' :=
        mapiv1beta1.MachineSet.set_Spec_Template_Annotations
          (metav1.ObjectMeta.Annotations
             (mapiv1beta1.Machine.ObjectMeta mapiPowerVSMachine')) mapiMachineSet' in
      let mapiMachineSet' :=
        mapiv1beta1.MachineSet.set_Spec_Template_Labels
          (metav1.ObjectMeta.Labels
             (mapiv1beta1.Machine.ObjectMeta mapiPowerVSMachine')) mapiMachineSet' in
      if (0 <? length errors)%nat then
        Ret (None, warnings, NewAggregate errors)
      else
        Ret (Some mapiMachineSet', warnings, None)
  | _, _, _, _ =>
      Ret (None, [],
           Some errCAPIMachineSetPowerVSMachineTemplatePowerVSClusterCannotBeNil)
  end.

End Assemblers.

(** ** Sample inputs and collaborators, used to run the model *)

Module Samples.

(** A metadata converter that copies name, labels and annotations and
    reports no error. *)
Definition convertMachine (cm : capiv1.Machine.t)
  : outcome (option mapiv1beta1.Machine.t * option error) :=
  Ret (Some {| mapiv1beta1.Machine.ObjectMeta := capiv1.Machine.ObjectMeta cm;
               mapiv1beta1.Machine.Spec :=
                 {| mapiv1beta1.MachineSpec.ObjectMeta := metav1.ObjectMeta.zero;
                    mapiv1beta1.MachineSpec.ProviderSpec :=
                      {| mapiv1beta1.ProviderSpec.Value := None |};
                    mapiv1beta1.MachineSpec.ProviderID :=
                      capiv1.MachineSpec.ProviderID (capiv1.Machine.Spec cm) |} |},
       None).

(** A metadata converter that returns the converted machine together with
    an error. *)
Definition convertMachine_failing (cm : capiv1.Machine.t)
  : outcome (option mapiv1beta1.Machine.t * option error) :=
  '(mapiMachine, _) ← convertMachine cm;
  Ret (mapiMachine, Some (errors_New "machine metadata can not be converted")).

Definition convertMachineSet (cms : capiv1.MachineSet.t)
  : outcome (option mapiv1beta1.MachineSet.t * option error) :=
  Ret (Some {| mapiv1beta1.MachineSet.ObjectMeta := capiv1.MachineSet.ObjectMeta cms;
               mapiv1beta1.MachineSet.Spec :=
                 {| mapiv1beta1.MachineSetSpec.Replicas :=
                      capiv1.MachineSetSpec.Replicas (capiv1.MachineSet.Spec cms);
                    mapiv1beta1.MachineSetSpec.Template :=
                      {| mapiv1beta1.MachineTemplateSpec.ObjectMeta :=
                           metav1.ObjectMeta.zero;
                         mapiv1beta1.MachineTemplateSpec.Spec :=
                           {| mapiv1beta1.MachineSpec.ObjectMeta := metav1.ObjectMeta.zero;
                              mapiv1beta1.MachineSpec.ProviderSpec :=
                                {| mapiv1beta1.ProviderSpec.Value := None |};
                              mapiv1beta1.MachineSpec.ProviderID := None |} |} |} |},
       None).

(** A serializer that writes the two bytes of an empty JSON object. *)
Definition marshal (c : PowerVSMachineProviderConfig.t)
  : list Byte.byte * option error :=
  ([Byte.x7b; Byte.x7d], None).

Definition marshal_failing (c : PowerVSMachineProviderConfig.t)
  : list Byte.byte * option error :=
  ([], Some (errors_New "json: unsupported value")).

Definition noReference : IBMPowerVSResourceReference.t :=
  {| IBMPowerVSResourceReference.ID := None;
     IBMPowerVSResourceReference.Name := None;
     IBMPowerVSResourceReference.RegEx := None |}.

Definition byID (id : string) : IBMPowerVSResourceReference.t :=
  {| IBMPowerVSResourceReference.ID := Some id;
     IBMPowerVSResourceReference.Name := None;
     IBMPowerVSResourceReference.RegEx := None |}.

Definition byName (name : string) : IBMPowerVSResourceReference.t :=
  {| IBMPowerVSResourceReference.ID := None;
     IBMPowerVSResourceReference.Name := Some name;
     IBMPowerVSResourceReference.RegEx := None |}.

Definition machineSpec (secret : option string) : capiv1.MachineSpec.t :=
  {| capiv1.MachineSpec.ClusterName := "cluster";
     capiv1.MachineSpec.Bootstrap := {| capiv1.Bootstrap.DataSecretName := secret |};
     capiv1.MachineSpec.ProviderID := None |}.

Definition workerMeta : metav1.ObjectMeta.t :=
  {| metav1.ObjectMeta.Name := "worker-0";
     metav1.ObjectMeta.Namespace := "openshift-cluster-api";
     metav1.ObjectMeta.Labels := {[ "tier" := "worker" ]};
     metav1.ObjectMeta.Annotations := ∅ |}.

Definition machine (secret : option string) : capiv1.Machine.t :=
  {| capiv1.Machine.ObjectMeta := workerMeta;
     capiv1.Machine.Spec := machineSpec secret |}.

Definition powerVSMachineSpec (serviceInstanceID : string)
    (serviceInstance image : option IBMPowerVSResourceReference.t)
    (imageRef : option corev1.LocalObjectReference.t)
    (network : IBMPowerVSResourceReference.t) : IBMPowerVSMachineSpec.t :=
  {| IBMPowerVSMachineSpec.ServiceInstanceID := serviceInstanceID;
     IBMPowerVSMachineSpec.ServiceInstance := serviceInstance;
     IBMPowerVSMachineSpec.SSHKey := "key";
     IBMPowerVSMachineSpec.Image := image;
     IBMPowerVSMachineSpec.ImageRef := imageRef;
     IBMPowerVSMachineSpec.SystemType := "s922";
     IBMPowerVSMachineSpec.ProcessorType := "Shared";
     IBMPowerVSMachineSpec.Processors :=
       {| intstr.IntOrString.Type_ := 0; intstr.IntOrString.IntVal := 2;
          intstr.IntOrString.StrVal := "" |};
     IBMPowerVSMachineSpec.MemoryGiB := 32;
     IBMPowerVSMachineSpec.Network := network |}.

(** Every reference resolvable. *)
Definition validSpec : IBMPowerVSMachineSpec.t :=
  powerVSMachineSpec "si-123" (Some (byName "my-instance")) None
    (Some {| corev1.LocalObjectReference.Name := "rhel-image" |}) (byID "net-1").

(** Service instance, image and network all unresolvable. *)
Definition invalidSpec : IBMPowerVSMachineSpec.t :=
  powerVSMachineSpec "" None None None noReference.

Definition powerVSMachine (spec : IBMPowerVSMachineSpec.t) : IBMPowerVSMachine.t :=
  {| IBMPowerVSMachine.ObjectMeta := workerMeta; IBMPowerVSMachine.Spec := spec |}.

Definition powerVSCluster : IBMPowerVSCluster.t :=
  {| IBMPowerVSCluster.ObjectMeta := metav1.ObjectMeta.zero |}.

Definition triple (secret : option string) (spec : IBMPowerVSMachineSpec.t)
  : machineAndPowerVSMachineAndPowerVSCluster.t :=
  FromMachineAndPowerVSMachineAndPowerVSCluster
    (Some (machine secret)) (Some (powerVSMachine spec)) (Some powerVSCluster).

Definition machineSet (secret : option string) : capiv1.MachineSet.t :=
  {| capiv1.MachineSet.ObjectMeta := workerMeta;
     capiv1.MachineSet.Spec :=
       {| capiv1.MachineSetSpec.ClusterName := "cluster";
          capiv1.MachineSetSpec.Replicas := Some 3%Z;
          capiv1.MachineSetSpec.Template :=
            {| capiv1.MachineTemplateSpec.ObjectMeta := workerMeta;
               capiv1.MachineTemplateSpec.Spec := machineSpec secret |} |} |}.

Definition machineTemplate (spec : IBMPowerVSMachineSpec.t)
  : IBMPowerVSMachineTemplate.t :=
  {| IBMPowerVSMachineTemplate.ObjectMeta := workerMeta;
     IBMPowerVSMachineTemplate.Spec :=
       {| IBMPowerVSMachineTemplateSpec.Template :=
            {| IBMPowerVSMachineTemplateResource.Spec := spec |} |} |}.

(** The set wrapper the public constructor builds from a machine set, a
    template and a cluster. *)
Definition setOf (secret : option string) (spec : IBMPowerVSMachineSpec.t)
  : machineSetAndPowerVSMachineTemplateAndPowerVSCluster.t :=
  machineSetWrapper (machineSet secret) (machineTemplate spec) (Some powerVSCluster).

(** A set wrapper whose embedded single-machine view has no machine. *)
Definition setWithoutInnerMachine
  : machineSetAndPowerVSMachineTemplateAndPowerVSCluster.t :=
  {| machineSetAndPowerVSMachineTemplateAndPowerVSCluster.machineSet :=
       Some (machineSet None);
     machineSetAndPowerVSMachineTemplateAndPowerVSCluster.template :=
       Some (machineTemplate validSpec);
     machineSetAndPowerVSMachineTemplateAndPowerVSCluster.powerVSCluster :=
       Some powerVSCluster;
     machineSetAndPowerVSMachineTemplateAndPowerVSCluster.embedded :=
       Some (FromMachineAndPowerVSMachineAndPowerVSCluster
               None (Some (powerVSMachine validSpec)) (Some powerVSCluster)) |}.

End Samples.

(** ** Predicates used in the statements *)

(** Exactly one of [ID], [Name], [RegEx] is non-nil, and [Type] names it. *)
Definition exactly_one_tag (r : PowerVSResource.t) : Prop :=
  (PowerVSResource.Type_ r = PowerVSResourceTypeID
   /\ PowerVSResource.ID r <> None
   /\ PowerVSResource.Name r = None /\ PowerVSResource.RegEx r = None)
  \/ (PowerVSResource.Type_ r = PowerVSResourceTypeName
      /\ PowerVSResource.ID r = None
      /\ PowerVSResource.Name r <> None /\ PowerVSResource.RegEx r = None)
  \/ (PowerVSResource.Type_ r = PowerVSResourceTypeRegEx
      /\ PowerVSResource.ID r = None
      /\ PowerVSResource.Name r = None /\ PowerVSResource.RegEx r <> None).

(** The number of non-nil fields among [ID], [Name], [RegEx]. *)
Definition populated_count (r : PowerVSResource.t) : nat :=
  (if not_nil (PowerVSResource.ID r) then 1 else 0)
  + (if not_nil (PowerVSResource.Name r) then 1 else 0)
  + (if not_nil (PowerVSResource.RegEx r) then 1 else 0).

(** A structured reference none of whose fields is set. *)
Definition resolves_no_tag (ref : IBMPowerVSResourceReference.t) : Prop :=
  IBMPowerVSResourceReference.ID ref = None
  /\ IBMPowerVSResourceReference.Name ref = None
  /\ IBMPowerVSResourceReference.RegEx ref = None.

(** The three wrapped inputs of a machine conversion are all present. *)
Definition triple_present (m : machineAndPowerVSMachineAndPowerVSCluster.t) : Prop :=
  machineAndPowerVSMachineAndPowerVSCluster.machine m <> None
  /\ machineAndPowerVSMachineAndPowerVSCluster.powerVSMachine m <> None
  /\ machineAndPowerVSMachineAndPowerVSCluster.powerVSCluster m <> None.

(** The four wrapped inputs of a machine set conversion are all present. *)
Definition quad_present (m : machineSetAndPowerVSMachineTemplateAndPowerVSCluster.t)
  : Prop :=
  machineSetAndPowerVSMachineTemplateAndPowerVSCluster.machineSet m <> None
  /\ machineSetAndPowerVSMachineTemplateAndPowerVSCluster.template m <> None
  /\ machineSetAndPowerVSMachineTemplateAndPowerVSCluster.powerVSCluster m <> None
  /\ machineSetAndPowerVSMachineTemplateAndPowerVSCluster.embedded m <> None.

(** A resource that has exactly one tag when [valid] holds and is the zero
    resource when it does not. *)
Definition tagged_or_zero (valid : Prop) (r : PowerVSResource.t) : Prop :=
  (valid /\ exactly_one_tag r) \/ (~ valid /\ r = PowerVSResource.zero).

(** * Properties *)

(** ** The resource reference converters *)

Section Converters.

Variable fldPath : field.Path.

Lemma exactly_one_tag_count (r : PowerVSResource.t) :
  exactly_one_tag r -> populated_count r = 1.
Proof.
  unfold exactly_one_tag, populated_count.
  destruct r as [ty [i|] [n|] [x|]]; simpl; intuition congruence.
Qed.

Lemma network_tagged network r :
  convertPowerVSNetworkToMAPI fldPath network = (r, None) -> exactly_one_tag r.
Proof.
  unfold convertPowerVSNetworkToMAPI, exactly_one_tag.
  destruct network as [[i|] [n|] [x|]]; simpl; intros [= <-]; simpl;
    intuition congruence.
Qed.

Lemma image_tagged image imageRef r :
  convertPowerVSImageToMAPI fldPath image imageRef = Ret (r, None) ->
  exactly_one_tag r.
Proof.
  unfold convertPowerVSImageToMAPI, exactly_one_tag.
  destruct image as [[[i|] [n|] [x|]]|], imageRef as [ref|]; simpl;
    intros [= <-]; simpl; intuition congruence.
Qed.

Lemma serviceInstance_tagged serviceInstanceID serviceInstance r :
  convertPowerVSServiceInstanceToMAPI fldPath serviceInstanceID serviceInstance
  = (r, None) ->
  exactly_one_tag r.
Proof.
  unfold convertPowerVSServiceInstanceToMAPI, exactly_one_tag.
  destruct (String.eqb serviceInstanceID ""); simpl.
  - destruct serviceInstance as [[[i|] [n|] [x|]]|]; simpl;
      intros [= <-]; simpl; intuition congruence.
  - intros [= <-]; simpl. intuition congruence.
Qed.

(** The image converter with neither a structured reference nor a
    fallback returns a field error at the given path. *)
Lemma image_nil_nil :
  convertPowerVSImageToMAPI fldPath None None
  = Ret (PowerVSResource.zero,
         Some (field.Invalid fldPath (field.ReferencePointer None)
                 "unable to convert image, image and imageref is nil")).
Proof. reflexivity. Qed.

(** The image converter returns unless the structured reference is
    present, empty, and there is no fallback. *)
Lemma image_returns image imageRef :
  returns (convertPowerVSImageToMAPI fldPath image imageRef) = false <->
  (exists ref, image = Some ref /\ resolves_no_tag ref) /\ imageRef = None.
Proof.
  unfold convertPowerVSImageToMAPI, resolves_no_tag.
  destruct image as [[[i|] [n|] [x|]]|], imageRef as [ref|]; simpl; split;
    try discriminate; try reflexivity;
    try (intros [(ref' & [= <-] & H1 & H2 & H3) H4]; simpl in *; congruence).
  intros _. split; [eexists; split; [reflexivity | auto] | reflexivity].
Qed.

(** C3: when the structured image reference is present but has none of
    ID, Name, RegEx set, and no fallback image-name reference is given,
    the image converter does not return a field error: it panics on the
    nil fallback. *)
Theorem convertPowerVSImageToMAPI_empty_reference_panics
    (image : IBMPowerVSResourceReference.t) :
  resolves_no_tag image ->
  convertPowerVSImageToMAPI fldPath (Some image) None = Panic.
Proof.
  intros (H1 & H2 & H3). destruct image as [i n x]; simpl in *; subst.
  reflexivity.
Qed.

(** C5: a non-empty legacy service-instance ID yields an ID-tagged
    reference carrying that ID and no error, whatever the structured
    reference is. *)
Theorem convertPowerVSServiceInstanceToMAPI_legacy_ID_wins
    (serviceInstanceID : string)
    (serviceInstance : option IBMPowerVSResourceReference.t) :
  serviceInstanceID <> "" ->
  convertPowerVSServiceInstanceToMAPI fldPath serviceInstanceID serviceInstance
  = ({| PowerVSResource.Type_ := PowerVSResourceTypeID;
        PowerVSResource.ID := Some serviceInstanceID;
        PowerVSResource.Name := None;
        PowerVSResource.RegEx := None |}, None).
Proof.
  intros Hne. unfold convertPowerVSServiceInstanceToMAPI.
  destruct (String.eqb_spec serviceInstanceID "") as [Heq | _]; [contradiction |].
  reflexivity.
Qed.

(** C6: whenever the network, image or service-instance converter
    returns without an error, the returned resource has exactly one of
    ID, Name, RegEx non-nil and its Type names that field. *)
Theorem converters_tag_exclusivity :
  (forall network r,
      convertPowerVSNetworkToMAPI fldPath network = (r, None) ->
      exactly_one_tag r /\ populated_count r = 1)
  /\ (forall image imageRef r,
        convertPowerVSImageToMAPI fldPath image imageRef = Ret (r, None) ->
        exactly_one_tag r /\ populated_count r = 1)
  /\ (forall serviceInstanceID serviceInstance r,
        convertPowerVSServiceInstanceToMAPI fldPath serviceInstanceID serviceInstance
        = (r, None) ->
        exactly_one_tag r /\ populated_count r = 1).
Proof.
  repeat split; eauto using exactly_one_tag_count, network_tagged, image_tagged,
    serviceInstance_tagged.
Qed.

End Converters.

(** ** The scenarios of the specification, run on the converters *)

Example serviceInstance_ID_before_Name :
  convertPowerVSServiceInstanceToMAPI (field.Child (field.NewPath "spec") "serviceInstance")
    "" (Some {| IBMPowerVSResourceReference.ID := Some "si-123";
                IBMPowerVSResourceReference.Name := Some "my-instance";
                IBMPowerVSResourceReference.RegEx := None |})
  = ({| PowerVSResource.Type_ := "ID"; PowerVSResource.ID := Some "si-123";
        PowerVSResource.Name := None; PowerVSResource.RegEx := None |}, None).
Proof. reflexivity. Qed.

Example network_without_tag :
  convertPowerVSNetworkToMAPI (field.Child (field.NewPath "spec") "network")
    Samples.noReference
  = (PowerVSResource.zero,
     Some {| field.Error.Type_ := field.ErrorTypeInvalid;
             field.Error.Field := "spec.network";
             field.Error.BadValue_ := field.ReferenceValue Samples.noReference;
             field.Error.Detail := "unable to convert network to MAPI" |}).
Proof. reflexivity. Qed.

Example image_falls_back_to_imageRef :
  convertPowerVSImageToMAPI (field.Child (field.NewPath "spec") "image")
    None (Some {| corev1.LocalObjectReference.Name := "rhel-image" |})
  = Ret ({| PowerVSResource.Type_ := "Name"; PowerVSResource.ID := None;
            PowerVSResource.Name := Some "rhel-image";
            PowerVSResource.RegEx := None |}, None).
Proof. reflexivity. Qed.

(** ** The field mapper *)

Ltac split_outcome :=
  match goal with
  | H : Ret _ = Ret _ |- _ => injection H as H; try subst
  | H : Panic = Ret _ |- _ => discriminate H
  | H : Ret _ = Panic |- _ => discriminate H
  | H : (_, _) = (_, _) |- _ => injection H as; try subst
  | H : context [mbind _ ?o] |- _ =>
      let E := fresh "E" in destruct o as [? |] eqn:E; simpl in H
  | |- context [mbind _ ?o] =>
      let E := fresh "E" in destruct o as [? |] eqn:E; simpl
  | p : (_ * _)%type |- _ => destruct p
  end.

Section FieldMapper.

Import machineAndPowerVSMachineAndPowerVSCluster.

Lemma toProviderSpec_body_locals machine powerVSMachine locals :
  toProviderSpec_body machine powerVSMachine = Ret locals ->
  toProviderSpec_locals.warnings locals = []
  /\ PowerVSMachineProviderConfig.UserDataSecret
       (toProviderSpec_locals.mapiProviderConfig locals)
     = match capiv1.Bootstrap.DataSecretName
               (capiv1.MachineSpec.Bootstrap (capiv1.Machine.Spec machine)) with
       | Some s => if String.eqb s "" then None
                   else Some {| PowerVSSecretReference.Name := s |}
       | None => None
       end.
Proof.
  unfold toProviderSpec_body. intros H.
  destruct (convertPowerVSServiceInstanceToMAPI _ _ _) as [si e1].
  destruct (convertPowerVSNetworkToMAPI _ _) as [nw e3].
  repeat split_outcome. simpl. split; [reflexivity |].
  destruct (capiv1.Bootstrap.DataSecretName _) as [s|]; simpl; [| reflexivity].
  destruct (String.eqb s ""); reflexivity.
Qed.

Lemma toProviderSpec_body_returns machine powerVSMachine :
  returns (toProviderSpec_body machine powerVSMachine)
  = returns (convertPowerVSImageToMAPI
               (field.Child (field.NewPath "spec") "image")
               (IBMPowerVSMachineSpec.Image (IBMPowerVSMachine.Spec powerVSMachine))
               (IBMPowerVSMachineSpec.ImageRef (IBMPowerVSMachine.Spec powerVSMachine))).
Proof.
  unfold toProviderSpec_body.
  destruct (convertPowerVSServiceInstanceToMAPI _ _ _) as [si e1].
  destruct (convertPowerVSNetworkToMAPI _ _) as [nw e3].
  destruct (convertPowerVSImageToMAPI _ _ _) as [[img e2] |]; reflexivity.
Qed.

(** What [toProviderSpec] returns on a complete triple. *)
Lemma toProviderSpec_present m mc pm pc :
  machine m = Some mc -> powerVSMachine m = Some pm -> powerVSCluster m = Some pc ->
  toProviderSpec m
  = (locals ← toProviderSpec_body mc pm;
     Ret (Some (toProviderSpec_locals.mapiProviderConfig locals),
          toProviderSpec_locals.warnings locals, None)).
Proof. intros H1 H2 H3. unfold toProviderSpec. rewrite H1, H2, H3. reflexivity. Qed.

(** What [toProviderSpec] returns on an incomplete triple. *)
Lemma toProviderSpec_absent m :
  machine m = None \/ powerVSMachine m = None \/ powerVSCluster m = None ->
  toProviderSpec m
  = Ret (None, [], Some errCAPIMachinePowerVSMachinePowerVSClusterCannotBeNil).
Proof.
  unfold toProviderSpec.
  destruct (machine m), (powerVSMachine m), (powerVSCluster m);
    intros [H | [H | H]]; congruence.
Qed.

(** On a complete triple [toProviderSpec] never returns an error. *)
Lemma toProviderSpec_no_error m cfg w e :
  triple_present m ->
  toProviderSpec m = Ret (cfg, w, e) ->
  cfg <> None /\ w = [] /\ e = None.
Proof.
  intros (H1 & H2 & H3).
  destruct (machine m) as [mc|] eqn:E1; [| contradiction].
  destruct (powerVSMachine m) as [pm|] eqn:E2; [| contradiction].
  destruct (powerVSCluster m) as [pc|] eqn:E3; [| contradiction].
  rewrite (toProviderSpec_present m mc pm pc E1 E2 E3).
  intros H. repeat split_outcome.
  destruct (toProviderSpec_body_locals _ _ _ E) as [-> _]. auto.
Qed.

Lemma toProviderSpec_warnings m cfg w e :
  toProviderSpec m = Ret (cfg, w, e) -> w = [].
Proof.
  destruct (machine m) as [mc|] eqn:E1;
    [destruct (powerVSMachine m) as [pm|] eqn:E2;
     [destruct (powerVSCluster m) as [pc|] eqn:E3 |] |].
  - intros H. eapply toProviderSpec_no_error; [| exact H].
    unfold triple_present. rewrite E1, E2, E3. auto.
  - rewrite toProviderSpec_absent by auto. congruence.
  - rewrite toProviderSpec_absent by auto. congruence.
  - rewrite toProviderSpec_absent by auto. congruence.
Qed.

(** C9: on a complete triple, the provider config that [toProviderSpec]
    produces has its user-data secret set to the bootstrap data-secret
    name exactly when that name is present and non-empty, and unset when
    the name is nil or empty; a config is produced whenever the image
    conversion returns. *)
Theorem toProviderSpec_userDataSecret m mc pm pc :
  machine m = Some mc -> powerVSMachine m = Some pm -> powerVSCluster m = Some pc ->
  let name :=
    capiv1.Bootstrap.DataSecretName
      (capiv1.MachineSpec.Bootstrap (capiv1.Machine.Spec mc)) in
  (returns (convertPowerVSImageToMAPI
              (field.Child (field.NewPath "spec") "image")
              (IBMPowerVSMachineSpec.Image (IBMPowerVSMachine.Spec pm))
              (IBMPowerVSMachineSpec.ImageRef (IBMPowerVSMachine.Spec pm))) = true ->
   exists cfg, toProviderSpec m = Ret (Some cfg, [], None))
  /\ (forall cfg w e,
        toProviderSpec m = Ret (cfg, w, e) ->
        exists cfg',
          cfg = Some cfg'
          /\ (forall ref,
                PowerVSMachineProviderConfig.UserDataSecret cfg' = Some ref <->
                name = Some (PowerVSSecretReference.Name ref)
                /\ PowerVSSecretReference.Name ref <> "")
          /\ (PowerVSMachineProviderConfig.UserDataSecret cfg' = None <->
              name = None \/ name = Some "")).
Proof.
  intros E1 E2 E3 name.
  rewrite (toProviderSpec_present m mc pm pc E1 E2 E3). split.
  - rewrite <- (toProviderSpec_body_returns mc pm).
    destruct (toProviderSpec_body mc pm) as [l|] eqn:E; [| discriminate].
    intros _. simpl. destruct (toProviderSpec_body_locals _ _ _ E) as [-> _]. eauto.
  - intros cfg w e H. repeat split_outcome.
    destruct (toProviderSpec_body_locals _ _ _ E) as [_ Hu].
    eexists; split; [reflexivity |]. rewrite Hu. subst name.
    destruct (capiv1.Bootstrap.DataSecretName _) as [s|].
    + clear Hu. destruct (String.eqb_spec s "") as [Heq | Hne].
      * subst s. split.
        -- intros ref; split; [discriminate |]. intros [[= <-] Hn]. contradiction.
        -- split; auto.
      * split.
        -- intros [r]; simpl; split.
           ++ intros [= <-]. auto.
           ++ intros [[= <-] _]. reflexivity.
        -- split; [discriminate |].
           intros [H | [= ->]]; [discriminate | contradiction].
    + split.
      * intros ref; split; [discriminate | intros [H _]; discriminate].
      * split; auto.
Qed.

End FieldMapper.

(** ** The payload encoder and the assemblers *)

Section AssemblerProperties.

Import machineAndPowerVSMachineAndPowerVSCluster.

Variable json_Marshal : PowerVSMachineProviderConfig.t -> list Byte.byte * option error.
Variable fromCAPIMachineToMAPIMachine :
  capiv1.Machine.t -> outcome (option mapiv1beta1.Machine.t * option error).
Variable fromCAPIMachineSetToMAPIMachineSet :
  capiv1.MachineSet.t -> outcome (option mapiv1beta1.MachineSet.t * option error).

(** C8: the payload encoder maps a nil config to an empty envelope and no
    error; on a non-nil config it returns either an envelope holding the
    serializer's bytes and no error, or no envelope and the serializer's
    error wrapped under the name of the marshalling operation. *)
Theorem rawExtensionFromPowerVSProviderSpec_cases :
  rawExtensionFromPowerVSProviderSpec json_Marshal None
  = (Some {| runtime.RawExtension.Raw := [] |}, None)
  /\ forall spec,
      (snd (json_Marshal spec) = None
       /\ rawExtensionFromPowerVSProviderSpec json_Marshal (Some spec)
          = (Some {| runtime.RawExtension.Raw := fst (json_Marshal spec) |}, None))
      \/ (exists err,
            snd (json_Marshal spec) = Some err
            /\ rawExtensionFromPowerVSProviderSpec json_Marshal (Some spec)
               = (None, Some (fmt_Errorf_w "error marshalling providerSpec" err))).
Proof.
  split; [reflexivity |]. intros spec. simpl.
  destruct (json_Marshal spec) as [rawBytes [err|]]; simpl; eauto.
Qed.

(** The encoder never returns both an envelope and an error, nor neither. *)
Lemma rawExtension_exclusive spec ext err :
  rawExtensionFromPowerVSProviderSpec json_Marshal spec = (ext, err) ->
  (ext = None <-> err <> None).
Proof.
  destruct spec as [spec|]; simpl.
  - destruct (json_Marshal spec) as [rawBytes [e|]]; intros [= <- <-];
      split; congruence.
  - intros [= <- <-]. split; congruence.
Qed.

(** What [ToMachine] computes on a complete triple, given what the field
    mapper and the metadata converter returned. *)
Lemma ToMachine_present m mc pm pc :
  machine m = Some mc -> powerVSMachine m = Some pm -> powerVSCluster m = Some pc ->
  ToMachine json_Marshal fromCAPIMachineToMAPIMachine m
  = ('(mapiPowerVSSpec, warn, err1) ← toProviderSpec m;
     '(mapiMachine, err2) ← fromCAPIMachineToMAPIMachine mc;
     let '(powerVSRawExt, err3) :=
       rawExtensionFromPowerVSProviderSpec json_Marshal mapiPowerVSSpec in
     let errors := append_if_err (append_if_err (append_if_err [] err1) err2) err3 in
     mapiMachine' ← deref mapiMachine;
     match errors with
     | [] => Ret (Some (mapiv1beta1.Machine.set_Spec_ProviderSpec_Value
                          powerVSRawExt mapiMachine'), warn, None)
     | _ :: _ => Ret (None, warn, Some (aggregate errors))
     end).
Proof.
  intros H1 H2 H3. unfold ToMachine. rewrite H1, H2, H3.
  destruct (toProviderSpec m) as [[[cfg w] e1] |]; simpl; [| reflexivity].
  destruct (fromCAPIMachineToMAPIMachine mc) as [[mm e2] |]; simpl; [| reflexivity].
  destruct (rawExtensionFromPowerVSProviderSpec json_Marshal cfg) as [ext e3].
  destruct mm as [mm|]; simpl; [| reflexivity].
  destruct (append_if_err _ e3); reflexivity.
Qed.

Lemma ToMachine_absent m :
  machine m = None \/ powerVSMachine m = None \/ powerVSCluster m = None ->
  ToMachine json_Marshal fromCAPIMachineToMAPIMachine m
  = Ret (None, [], Some errCAPIMachinePowerVSMachinePowerVSClusterCannotBeNil).
Proof.
  unfold ToMachine.
  destruct (machine m), (powerVSMachine m), (powerVSCluster m);
    intros [H | [H | H]]; congruence.
Qed.

Lemma triple_cases m :
  (exists mc pm pc,
      machine m = Some mc /\ powerVSMachine m = Some pm /\ powerVSCluster m = Some pc)
  \/ (machine m = None \/ powerVSMachine m = None \/ powerVSCluster m = None).
Proof.
  destruct (machine m), (powerVSMachine m), (powerVSCluster m); eauto 10.
Qed.

(** [ToMachine] returns a machine exactly when it returns no error, and
    its warnings are those of the field mapper. *)
Lemma ToMachine_result m mm w e :
  ToMachine json_Marshal fromCAPIMachineToMAPIMachine m = Ret (mm, w, e) ->
  w = [] /\ (mm = None <-> e <> None).
Proof.
  destruct (triple_cases m) as [(mc & pm & pc & H1 & H2 & H3) | Habs].
  - rewrite (ToMachine_present m mc pm pc H1 H2 H3). intros H.
    destruct (toProviderSpec m) as [[[cfg w1] e1] |] eqn:E1; simpl in H;
      [| discriminate].
    apply toProviderSpec_warnings in E1 as ->.
    destruct (fromCAPIMachineToMAPIMachine mc) as [[mm2 e2] |]; simpl in H;
      [| discriminate].
    destruct (rawExtensionFromPowerVSProviderSpec json_Marshal cfg) as [ext e3].
    destruct mm2 as [mm2|]; simpl in H; [| discriminate].
    destruct (append_if_err _ e3); injection H as <- <- <-;
      split; auto; split; congruence.
  - rewrite (ToMachine_absent m Habs). intros [= <- <- <-].
    split; auto; split; congruence.
Qed.


Lemma quad_cases (m : machineSetAndPowerVSMachineTemplateAndPowerVSCluster.t) :
  (exists ms t pc inner,
      machineSetAndPowerVSMachineTemplateAndPowerVSCluster.machineSet m = Some ms
      /\ machineSetAndPowerVSMachineTemplateAndPowerVSCluster.template m = Some t
      /\ machineSetAndPowerVSMachineTemplateAndPowerVSCluster.powerVSCluster m = Some pc
      /\ machineSetAndPowerVSMachineTemplateAndPowerVSCluster.embedded m = Some inner)
  \/ (machineSetAndPowerVSMachineTemplateAndPowerVSCluster.machineSet m = None
      \/ machineSetAndPowerVSMachineTemplateAndPowerVSCluster.template m = None
      \/ machineSetAndPowerVSMachineTemplateAndPowerVSCluster.powerVSCluster m = None
      \/ machineSetAndPowerVSMachineTemplateAndPowerVSCluster.embedded m = None).
Proof.
  destruct m as [[ms|] [t|] [pc|] [inner|]]; simpl; eauto 12.
Qed.

(** What [ToMachineSet] computes on a complete input, given what [ToMachine]
    and the set-level metadata converter returned. *)
Lemma ToMachineSet_present m ms t pc inner :
  machineSetAndPowerVSMachineTemplateAndPowerVSCluster.machineSet m = Some ms ->
  machineSetAndPowerVSMachineTemplateAndPowerVSCluster.template m = Some t ->
  machineSetAndPowerVSMachineTemplateAndPowerVSCluster.powerVSCluster m = Some pc ->
  machineSetAndPowerVSMachineTemplateAndPowerVSCluster.embedded m = Some inner ->
  ToMachineSet json_Marshal fromCAPIMachineToMAPIMachine
    fromCAPIMachineSetToMAPIMachineSet m
  = ('(mapiPowerVSMachine, warn, err1) ←
       ToMachine json_Marshal fromCAPIMachineToMAPIMachine inner;
     '(mapiMachineSet, err2) ← fromCAPIMachineSetToMAPIMachineSet ms;
     mapiMachineSet' ← deref mapiMachineSet;
     mapiPowerVSMachine' ← deref mapiPowerVSMachine;
     match append_if_err (append_if_err [] err1) err2 with
     | [] =>
         Ret (Some
                (mapiv1beta1.MachineSet.set_Spec_Template_Labels
                   (metav1.ObjectMeta.Labels
                      (mapiv1beta1.Machine.ObjectMeta mapiPowerVSMachine'))
                   (mapiv1beta1.MachineSet.set_Spec_Template_Annotations
                      (metav1.ObjectMeta.Annotations
                         (mapiv1beta1.Machine.ObjectMeta mapiPowerVSMachine'))
                      (mapiv1beta1.MachineSet.set_Spec_Template_Spec
                         (mapiv1beta1.Machine.Spec mapiPowerVSMachine')
                         mapiMachineSet'))),
              warn, None)
     | errors => Ret (None, warn, Some (aggregate errors))
     end).
Proof.
  intros H1 H2 H3 H4. unfold ToMachineSet. rewrite H1, H2, H3, H4.
  destruct (ToMachine json_Marshal fromCAPIMachineToMAPIMachine inner)
    as [[[mm w] e1] |]; simpl; [| reflexivity].
  destruct (fromCAPIMachineSetToMAPIMachineSet ms) as [[mms e2] |]; simpl;
    [| reflexivity].
  destruct mms as [mms|]; simpl; [| reflexivity].
  destruct mm as [mm|]; simpl; [| reflexivity].
  destruct (append_if_err _ e2); reflexivity.
Qed.

Lemma ToMachineSet_absent m :
  machineSetAndPowerVSMachineTemplateAndPowerVSCluster.machineSet m = None
  \/ machineSetAndPowerVSMachineTemplateAndPowerVSCluster.template m = None
  \/ machineSetAndPowerVSMachineTemplateAndPowerVSCluster.powerVSCluster m = None
  \/ machineSetAndPowerVSMachineTemplateAndPowerVSCluster.embedded m = None ->
  ToMachineSet json_Marshal fromCAPIMachineToMAPIMachine
    fromCAPIMachineSetToMAPIMachineSet m
  = Ret (None, [],
         Some errCAPIMachineSetPowerVSMachineTemplatePowerVSClusterCannotBeNil).
Proof.
  unfold ToMachineSet.
  destruct m as [[ms|] [t|] [pc|] [inner|]]; simpl;
    intros [H | [H | [H | H]]]; congruence.
Qed.

(** C2: on a complete machine set input whose per-machine conversion
    returns an error, [ToMachineSet] does not return the aggregate error:
    [ToMachine] returned a nil machine, and reading its spec panics. *)
Theorem ToMachineSet_panics_on_ToMachine_error m inner mapiMachine warn err :
  quad_present m ->
  machineSetAndPowerVSMachineTemplateAndPowerVSCluster.embedded m = Some inner ->
  ToMachine json_Marshal fromCAPIMachineToMAPIMachine inner
  = Ret (mapiMachine, warn, Some err) ->
  ToMachineSet json_Marshal fromCAPIMachineToMAPIMachine
    fromCAPIMachineSetToMAPIMachineSet m = Panic.
Proof.
  intros Hq Hin Hm.
  destruct (quad_cases m) as [(ms & t & pc & inner' & H1 & H2 & H3 & H4) | Habs].
  - rewrite (ToMachineSet_present m ms t pc inner' H1 H2 H3 H4).
    assert (inner' = inner) as -> by congruence.
    rewrite Hm. simpl.
    destruct (ToMachine_result _ _ _ _ Hm) as [_ [_ Hnil]].
    rewrite Hnil by discriminate.
    destruct (fromCAPIMachineSetToMAPIMachineSet ms) as [[[mms|] e2] |]; reflexivity.
  - destruct Hq as (Q1 & Q2 & Q3 & Q4). intuition congruence.
Qed.

(** C4: with any of machine, infra-machine, infra-cluster nil, [ToMachine]
    returns a nil machine, nil warnings and its precondition error; with any
    of machine set, template, infra-cluster, embedded view nil,
    [ToMachineSet] returns a nil set, nil warnings and its precondition
    error. *)
Theorem precondition_fast_fail :
  (forall m,
      machine m = None \/ powerVSMachine m = None \/ powerVSCluster m = None ->
      ToMachine json_Marshal fromCAPIMachineToMAPIMachine m
      = Ret (None, [], Some errCAPIMachinePowerVSMachinePowerVSClusterCannotBeNil))
  /\ (forall m,
        machineSetAndPowerVSMachineTemplateAndPowerVSCluster.machineSet m = None
        \/ machineSetAndPowerVSMachineTemplateAndPowerVSCluster.template m = None
        \/ machineSetAndPowerVSMachineTemplateAndPowerVSCluster.powerVSCluster m = None
        \/ machineSetAndPowerVSMachineTemplateAndPowerVSCluster.embedded m = None ->
        ToMachineSet json_Marshal fromCAPIMachineToMAPIMachine
    fromCAPIMachineSetToMAPIMachineSet m
        = Ret (None, [],
               Some errCAPIMachineSetPowerVSMachineTemplatePowerVSClusterCannotBeNil)).
Proof. split; [apply ToMachine_absent | apply ToMachineSet_absent]. Qed.

(** C7: when [ToMachineSet] returns a machine set and no error, the
    embedded single-machine conversion returned a machine and no error, and
    the set's template has that machine's spec, labels and annotations. *)
Theorem ToMachineSet_template_matches_ToMachine m mapiMachineSet warn :
  ToMachineSet json_Marshal fromCAPIMachineToMAPIMachine
    fromCAPIMachineSetToMAPIMachineSet m = Ret (Some mapiMachineSet, warn, None) ->
  exists inner mapiMachine,
    machineSetAndPowerVSMachineTemplateAndPowerVSCluster.embedded m = Some inner
    /\ ToMachine json_Marshal fromCAPIMachineToMAPIMachine inner
       = Ret (Some mapiMachine, warn, None)
    /\ let template :=
         mapiv1beta1.MachineSetSpec.Template
           (mapiv1beta1.MachineSet.Spec mapiMachineSet) in
       mapiv1beta1.MachineTemplateSpec.Spec template
       = mapiv1beta1.Machine.Spec mapiMachine
       /\ metav1.ObjectMeta.Labels (mapiv1beta1.MachineTemplateSpec.ObjectMeta template)
          = metav1.ObjectMeta.Labels (mapiv1beta1.Machine.ObjectMeta mapiMachine)
       /\ metav1.ObjectMeta.Annotations
            (mapiv1beta1.MachineTemplateSpec.ObjectMeta template)
          = metav1.ObjectMeta.Annotations (mapiv1beta1.Machine.ObjectMeta mapiMachine).
Proof.
  destruct (quad_cases m) as [(ms & t & pc & inner & H1 & H2 & H3 & H4) | Habs].
  - rewrite (ToMachineSet_present m ms t pc inner H1 H2 H3 H4). intros H.
    destruct (ToMachine json_Marshal fromCAPIMachineToMAPIMachine inner)
      as [[[mm w] e1] |] eqn:Em; simpl in H;
      [| discriminate].
    destruct (fromCAPIMachineSetToMAPIMachineSet ms) as [[[mms|] e2] |];
      simpl in H; try discriminate.
    destruct mm as [mm|]; simpl in H; [| discriminate].
    destruct e1 as [e1|], e2 as [e2|]; simpl in H; try discriminate.
    injection H as <- <-. exists inner, mm. auto.
  - rewrite (ToMachineSet_absent m Habs). discriminate.
Qed.

(** C10: no stage emits a warning: whatever [toProviderSpec], [ToMachine]
    and [ToMachineSet] return, the returned warnings are empty. *)
Theorem conversion_never_warns :
  (forall m cfg w e, toProviderSpec m = Ret (cfg, w, e) -> w = [])
  /\ (forall m mapiMachine w e,
        ToMachine json_Marshal fromCAPIMachineToMAPIMachine m = Ret (mapiMachine, w, e) ->
        w = [])
  /\ (forall m mapiMachineSet w e,
        ToMachineSet json_Marshal fromCAPIMachineToMAPIMachine
    fromCAPIMachineSetToMAPIMachineSet m = Ret (mapiMachineSet, w, e) -> w = []).
Proof.
  split; [exact toProviderSpec_warnings |].
  split; [intros m mm w e H; apply (ToMachine_result m mm w e H) |].
  intros m mms w e.
  destruct (quad_cases m) as [(ms & t & pc & inner & H1 & H2 & H3 & H4) | Habs].
  - rewrite (ToMachineSet_present m ms t pc inner H1 H2 H3 H4). intros H.
    destruct (ToMachine json_Marshal fromCAPIMachineToMAPIMachine inner)
      as [[[mm w1] e1] |] eqn:Em; simpl in H;
      [| discriminate].
    destruct (ToMachine_result _ _ _ _ Em) as [-> _].
    destruct (fromCAPIMachineSetToMAPIMachineSet ms) as [[[mms2|] e2] |];
      simpl in H; try discriminate.
    destruct mm as [mm|]; simpl in H; [| discriminate].
    destruct (append_if_err _ e2); congruence.
  - rewrite (ToMachineSet_absent m Habs). congruence.
Qed.

End AssemblerProperties.

(** ** The collected field errors are not reported *)

Section CollectedErrors.

Import machineAndPowerVSMachineAndPowerVSCluster.

Variable json_Marshal : PowerVSMachineProviderConfig.t -> list Byte.byte * option error.
Variable fromCAPIMachineToMAPIMachine :
  capiv1.Machine.t -> outcome (option mapiv1beta1.Machine.t * option error).

(** Whatever field errors [toProviderSpec] collected in its local list,
    [ToMachine] returns the converted machine and no error as soon as the
    metadata converter and the serializer succeed. *)
Lemma ToMachine_ignores_collected_errors m mc pm pc locals mapiMachine rawBytes :
  machine m = Some mc -> powerVSMachine m = Some pm -> powerVSCluster m = Some pc ->
  toProviderSpec_body mc pm = Ret locals ->
  fromCAPIMachineToMAPIMachine mc = Ret (Some mapiMachine, None) ->
  json_Marshal (toProviderSpec_locals.mapiProviderConfig locals) = (rawBytes, None) ->
  ToMachine json_Marshal fromCAPIMachineToMAPIMachine m
  = Ret (Some (mapiv1beta1.Machine.set_Spec_ProviderSpec_Value
                 (Some {| runtime.RawExtension.Raw := rawBytes |}) mapiMachine),
         [], None).
Proof.
  intros H1 H2 H3 Hbody Hconv Hjson.
  rewrite (ToMachine_present _ _ m mc pm pc H1 H2 H3).
  rewrite (toProviderSpec_present m mc pm pc H1 H2 H3), Hbody. simpl.
  destruct (toProviderSpec_body_locals _ _ _ Hbody) as [-> _].
  rewrite Hconv. simpl. rewrite Hjson. reflexivity.
Qed.

End CollectedErrors.

(** C1: on a complete triple whose service instance, image and network are
    all invalid, [toProviderSpec] collects the three field errors in its
    local list but returns a nil error, and [ToMachine] returns the
    converted machine with no error instead of an aggregate of the three. *)
Theorem ToMachine_drops_field_errors :
  let m := Samples.triple None Samples.invalidSpec in
  (exists locals,
      toProviderSpec_body (Samples.machine None)
        (Samples.powerVSMachine Samples.invalidSpec) = Ret locals
      /\ map field.Error.Field (toProviderSpec_locals.errors locals)
         = ["spec.serviceInstance"; "spec.image"; "spec.network"])
  /\ (exists cfg, toProviderSpec m = Ret (Some cfg, [], None))
  /\ (forall mapiMachine rawBytes,
        ToMachine (fun _ => (rawBytes, None)) (fun _ => Ret (Some mapiMachine, None)) m
        = Ret (Some (mapiv1beta1.Machine.set_Spec_ProviderSpec_Value
                       (Some {| runtime.RawExtension.Raw := rawBytes |}) mapiMachine),
               [], None)).
Proof.
  intros m. split; [| split].
  - eexists. split; reflexivity.
  - eexists. reflexivity.
  - intros mapiMachine rawBytes.
    eapply ToMachine_ignores_collected_errors; reflexivity.
Qed.

(** ** Runs of the statements on the sample inputs *)

Lemma convertPowerVSImageToMAPI_empty_reference_panics_witness :
  resolves_no_tag Samples.noReference
  /\ convertPowerVSImageToMAPI (field.Child (field.NewPath "spec") "image")
       (Some Samples.noReference) None = Panic.
Proof.
  assert (H : resolves_no_tag Samples.noReference) by (repeat split; reflexivity).
  split; [exact H |].
  apply (convertPowerVSImageToMAPI_empty_reference_panics _ _ H).
Defined.

Lemma convertPowerVSServiceInstanceToMAPI_legacy_ID_wins_witness :
  convertPowerVSServiceInstanceToMAPI (field.Child (field.NewPath "spec") "serviceInstance")
    "si-123" (Some (Samples.byName "my-instance"))
  = ({| PowerVSResource.Type_ := "ID";
        PowerVSResource.ID := Some "si-123";
        PowerVSResource.Name := None;
        PowerVSResource.RegEx := None |}, None).
Proof.
  apply convertPowerVSServiceInstanceToMAPI_legacy_ID_wins. discriminate.
Defined.

Lemma converters_tag_exclusivity_witness :
  exactly_one_tag
    {| PowerVSResource.Type_ := "RegEx"; PowerVSResource.ID := None;
       PowerVSResource.Name := None; PowerVSResource.RegEx := Some "^net-.*" |}
  /\ exactly_one_tag
       {| PowerVSResource.Type_ := "Name"; PowerVSResource.ID := None;
          PowerVSResource.Name := Some "rhel-image"; PowerVSResource.RegEx := None |}
  /\ exactly_one_tag
       {| PowerVSResource.Type_ := "ID"; PowerVSResource.ID := Some "si-123";
          PowerVSResource.Name := None; PowerVSResource.RegEx := None |}.
Proof.
  destruct (converters_tag_exclusivity (field.NewPath "spec")) as (Hn & Hi & Hs).
  split; [| split].
  - apply (Hn {| IBMPowerVSResourceReference.ID := None;
                 IBMPowerVSResourceReference.Name := None;
                 IBMPowerVSResourceReference.RegEx := Some "^net-.*" |}).
    reflexivity.
  - apply (Hi None (Some {| corev1.LocalObjectReference.Name := "rhel-image" |})).
    reflexivity.
  - apply (Hs "" (Some {| IBMPowerVSResourceReference.ID := Some "si-123";
                          IBMPowerVSResourceReference.Name := Some "my-instance";
                          IBMPowerVSResourceReference.RegEx := None |})).
    reflexivity.
Defined.

Lemma toProviderSpec_userDataSecret_witness :
  (exists cfg,
      toProviderSpec (Samples.triple (Some "secret") Samples.validSpec)
      = Ret (Some cfg, [], None)
      /\ PowerVSMachineProviderConfig.UserDataSecret cfg
         = Some {| PowerVSSecretReference.Name := "secret" |})
  /\ (exists cfg,
        toProviderSpec (Samples.triple (Some "") Samples.validSpec)
        = Ret (Some cfg, [], None)
        /\ PowerVSMachineProviderConfig.UserDataSecret cfg = None).
Proof.
  split.
  - destruct (toProviderSpec_userDataSecret
                (Samples.triple (Some "secret") Samples.validSpec)
                (Samples.machine (Some "secret"))
                (Samples.powerVSMachine Samples.validSpec) Samples.powerVSCluster
                eq_refl eq_refl eq_refl) as [Hex Hval].
    destruct (Hex eq_refl) as [cfg Hcfg]. exists cfg. split; [exact Hcfg |].
    destruct (Hval _ _ _ Hcfg) as (cfg' & Heq & Hset & _).
    injection Heq as <-. apply Hset. simpl. split; [reflexivity | discriminate].
  - destruct (toProviderSpec_userDataSecret
                (Samples.triple (Some "") Samples.validSpec)
                (Samples.machine (Some ""))
                (Samples.powerVSMachine Samples.validSpec) Samples.powerVSCluster
                eq_refl eq_refl eq_refl) as [Hex Hval].
    destruct (Hex eq_refl) as [cfg Hcfg]. exists cfg. split; [exact Hcfg |].
    destruct (Hval _ _ _ Hcfg) as (cfg' & Heq & _ & Hunset).
    injection Heq as <-. apply Hunset. right. reflexivity.
Defined.

Lemma ToMachineSet_panics_on_ToMachine_error_witness :
  ToMachineSet Samples.marshal Samples.convertMachine_failing
    Samples.convertMachineSet (Samples.setOf None Samples.validSpec) = Panic
  /\ ToMachineSet Samples.marshal Samples.convertMachine
       Samples.convertMachineSet Samples.setWithoutInnerMachine = Panic.
Proof.
  split.
  - eapply (ToMachineSet_panics_on_ToMachine_error Samples.marshal
              Samples.convertMachine_failing Samples.convertMachineSet).
    + repeat split; discriminate.
    + reflexivity.
    + vm_compute. reflexivity.
  - eapply (ToMachineSet_panics_on_ToMachine_error Samples.marshal
              Samples.convertMachine Samples.convertMachineSet).
    + repeat split; discriminate.
    + reflexivity.
    + vm_compute. reflexivity.
Defined.

Lemma precondition_fast_fail_witness :
  ToMachine Samples.marshal Samples.convertMachine
    (FromMachineAndPowerVSMachineAndPowerVSCluster
       (Some (Samples.machine None)) None (Some Samples.powerVSCluster))
  = Ret (None, [], Some errCAPIMachinePowerVSMachinePowerVSClusterCannotBeNil)
  /\ ToMachineSet Samples.marshal Samples.convertMachine Samples.convertMachineSet
       {| machineSetAndPowerVSMachineTemplateAndPowerVSCluster.machineSet :=
            Some (Samples.machineSet None);
          machineSetAndPowerVSMachineTemplateAndPowerVSCluster.template := None;
          machineSetAndPowerVSMachineTemplateAndPowerVSCluster.powerVSCluster :=
            Some Samples.powerVSCluster;
          machineSetAndPowerVSMachineTemplateAndPowerVSCluster.embedded :=
            Some (Samples.triple None Samples.validSpec) |}
     = Ret (None, [],
            Some errCAPIMachineSetPowerVSMachineTemplatePowerVSClusterCannotBeNil).
Proof.
  destruct (precondition_fast_fail Samples.marshal Samples.convertMachine
              Samples.convertMachineSet) as [Hm Hs].
  split.
  - apply Hm. right. left. reflexivity.
  - apply Hs. right. left. reflexivity.
Defined.

Lemma ToMachineSet_template_matches_ToMachine_witness :
  exists mapiMachineSet inner mapiMachine,
    ToMachineSet Samples.marshal Samples.convertMachine Samples.convertMachineSet
      (Samples.setOf (Some "secret") Samples.validSpec)
    = Ret (Some mapiMachineSet, [], None)
    /\ machineSetAndPowerVSMachineTemplateAndPowerVSCluster.embedded
         (Samples.setOf (Some "secret") Samples.validSpec) = Some inner
    /\ ToMachine Samples.marshal Samples.convertMachine inner
       = Ret (Some mapiMachine, [], None)
    /\ metav1.ObjectMeta.Labels
         (mapiv1beta1.MachineTemplateSpec.ObjectMeta
            (mapiv1beta1.MachineSetSpec.Template
               (mapiv1beta1.MachineSet.Spec mapiMachineSet)))
       = metav1.ObjectMeta.Labels (mapiv1beta1.Machine.ObjectMeta mapiMachine)
    /\ mapiv1beta1.MachineTemplateSpec.Spec
         (mapiv1beta1.MachineSetSpec.Template
            (mapiv1beta1.MachineSet.Spec mapiMachineSet))
       = mapiv1beta1.Machine.Spec mapiMachine.
Proof.
  evar (mapiMachineSet : mapiv1beta1.MachineSet.t).
  assert (Hset : ToMachineSet Samples.marshal Samples.convertMachine
                   Samples.convertMachineSet
                   (Samples.setOf (Some "secret") Samples.validSpec)
                 = Ret (Some mapiMachineSet, [], None))
    by (subst mapiMachineSet; vm_compute; reflexivity).
  exists mapiMachineSet.
  destruct (ToMachineSet_template_matches_ToMachine _ _ _ _ _ _ Hset)
    as (inner & mapiMachine & Hin & Hmach & Hspec & Hlab & Hann).
  exists inner, mapiMachine. repeat split; assumption.
Defined.

Lemma conversion_never_warns_witness :
  (exists cfg w e,
      toProviderSpec (Samples.triple None Samples.invalidSpec) = Ret (cfg, w, e)
      /\ w = [])
  /\ (exists mapiMachine w e,
        ToMachine Samples.marshal_failing Samples.convertMachine
          (Samples.triple None Samples.validSpec) = Ret (mapiMachine, w, e)
        /\ w = [])
  /\ (exists mapiMachineSet w e,
        ToMachineSet Samples.marshal Samples.convertMachine Samples.convertMachineSet
          (Samples.setOf None Samples.validSpec) = Ret (mapiMachineSet, w, e)
        /\ w = []).
Proof.
  destruct (conversion_never_warns Samples.marshal_failing Samples.convertMachine
              Samples.convertMachineSet) as (Hp & Hm & _).
  destruct (conversion_never_warns Samples.marshal Samples.convertMachine
              Samples.convertMachineSet) as (_ & _ & Hs).
  split; [| split].
  - destruct (toProviderSpec (Samples.triple None Samples.invalidSpec))
      as [[[cfg w] e] |] eqn:H; [| discriminate H].
    exists cfg, w, e. split; [reflexivity | exact (Hp _ _ _ _ H)].
  - destruct (ToMachine Samples.marshal_failing Samples.convertMachine
                (Samples.triple None Samples.validSpec))
      as [[[mm w] e] |] eqn:H; [| vm_compute in H; discriminate H].
    exists mm, w, e. split; [reflexivity | exact (Hm _ _ _ _ H)].
  - destruct (ToMachineSet Samples.marshal Samples.convertMachine
                Samples.convertMachineSet (Samples.setOf None Samples.validSpec))
      as [[[ms w] e] |] eqn:H; [| vm_compute in H; discriminate H].
    exists ms, w, e. split; [reflexivity | exact (Hs _ _ _ _ H)].
Defined.

(** * Further properties of the converters *)

Section ConverterCases.

Variable fldPath : field.Path.

(** The network converter fails exactly on a reference with no field set:
    it then returns the zero resource and a field error at the given path
    carrying the reference; on any other reference it returns no error and
    a resource with exactly one tag. *)
Theorem convertPowerVSNetworkToMAPI_error_iff
    (network : IBMPowerVSResourceReference.t) :
  (resolves_no_tag network ->
   convertPowerVSNetworkToMAPI fldPath network
   = (PowerVSResource.zero,
      Some {| field.Error.Type_ := field.ErrorTypeInvalid;
              field.Error.Field := field.String fldPath;
              field.Error.BadValue_ := field.ReferenceValue network;
              field.Error.Detail := "unable to convert network to MAPI" |}))
  /\ (~ resolves_no_tag network ->
      snd (convertPowerVSNetworkToMAPI fldPath network) = None
      /\ exactly_one_tag (fst (convertPowerVSNetworkToMAPI fldPath network))).
Proof.
  unfold resolves_no_tag, exactly_one_tag, convertPowerVSNetworkToMAPI.
  destruct network as [[i|] [n|] [x|]]; simpl; split;
    try (intros (H1 & H2 & H3); discriminate);
    try (intros _; split; [reflexivity | intuition congruence]).
  - intros _. reflexivity.
  - intros H. exfalso. apply H. auto.
Qed.

(** The network converter checks ID, then Name, then RegEx: the first field
    that is set decides the tag and is copied, and the fields after it are
    dropped from the result. *)
Theorem convertPowerVSNetworkToMAPI_precedence
    (v : string) (name regex : option string) :
  convertPowerVSNetworkToMAPI fldPath
    {| IBMPowerVSResourceReference.ID := Some v;
       IBMPowerVSResourceReference.Name := name;
       IBMPowerVSResourceReference.RegEx := regex |}
  = ({| PowerVSResource.Type_ := PowerVSResourceTypeID;
        PowerVSResource.ID := Some v;
        PowerVSResource.Name := None;
        PowerVSResource.RegEx := None |}, None)
  /\ convertPowerVSNetworkToMAPI fldPath
       {| IBMPowerVSResourceReference.ID := None;
          IBMPowerVSResourceReference.Name := Some v;
          IBMPowerVSResourceReference.RegEx := regex |}
     = ({| PowerVSResource.Type_ := PowerVSResourceTypeName;
           PowerVSResource.ID := None;
           PowerVSResource.Name := Some v;
           PowerVSResource.RegEx := None |}, None)
  /\ convertPowerVSNetworkToMAPI fldPath
       {| IBMPowerVSResourceReference.ID := None;
          IBMPowerVSResourceReference.Name := None;
          IBMPowerVSResourceReference.RegEx := Some v |}
     = ({| PowerVSResource.Type_ := PowerVSResourceTypeRegEx;
           PowerVSResource.ID := None;
           PowerVSResource.Name := None;
           PowerVSResource.RegEx := Some v |}, None).
Proof. repeat split. Qed.

(** The three converters resolve a structured reference alike: with an
    empty legacy ID the service-instance converter returns the resource the
    network converter returns and fails on the same references, and the
    image converter returns that resource, whatever the fallback, as soon as
    the reference has a field set. *)
Theorem converters_agree_on_reference
    (otherPath : field.Path) (ref : IBMPowerVSResourceReference.t)
    (imageRef : option corev1.LocalObjectReference.t) :
  fst (convertPowerVSServiceInstanceToMAPI fldPath "" (Some ref))
  = fst (convertPowerVSNetworkToMAPI otherPath ref)
  /\ (snd (convertPowerVSServiceInstanceToMAPI fldPath "" (Some ref)) = None <->
      snd (convertPowerVSNetworkToMAPI otherPath ref) = None)
  /\ (~ resolves_no_tag ref ->
      convertPowerVSImageToMAPI fldPath (Some ref) imageRef
      = Ret (fst (convertPowerVSNetworkToMAPI otherPath ref), None)).
Proof.
  unfold resolves_no_tag.
  destruct ref as [[i|] [n|] [x|]]; simpl; repeat split; try discriminate;
    try (intros H; exfalso; apply H; auto).
Qed.

(** The service-instance converter fails exactly when the legacy ID is empty
    and the structured reference is nil or has no field set; the error is
    then at the given path, carries the reference pointer, and comes with
    the zero resource. *)
Theorem convertPowerVSServiceInstanceToMAPI_error_iff
    (serviceInstanceID : string)
    (serviceInstance : option IBMPowerVSResourceReference.t) :
  (snd (convertPowerVSServiceInstanceToMAPI fldPath serviceInstanceID serviceInstance)
   <> None <->
   serviceInstanceID = ""
   /\ (serviceInstance = None
       \/ exists ref, serviceInstance = Some ref /\ resolves_no_tag ref))
  /\ (forall err,
        snd (convertPowerVSServiceInstanceToMAPI fldPath serviceInstanceID
               serviceInstance) = Some err ->
        fst (convertPowerVSServiceInstanceToMAPI fldPath serviceInstanceID
               serviceInstance) = PowerVSResource.zero
        /\ field.Error.Field err = field.String fldPath
        /\ field.Error.BadValue_ err = field.ReferencePointer serviceInstance).
Proof.
  unfold convertPowerVSServiceInstanceToMAPI, resolves_no_tag.
  destruct (String.eqb_spec serviceInstanceID "") as [-> | Hne]; simpl.
  - destruct serviceInstance as [[[i|] [n|] [x|]] |]; simpl.
    all: split; [split |].
    all: try (intros H; exfalso; apply H; reflexivity).
    all: try (intros [_ [H | (r & [= <-] & H1 & H2 & H3)]]; discriminate).
    all: try (intros err H; discriminate H).
    all: try (intros err [= <-]; auto).
    + intros _. split; [reflexivity |]. right. eexists. repeat split.
    + intros _. auto.
  - split.
    + split; [intros H; exfalso; apply H; reflexivity | intros [H _]; contradiction].
    + intros err; discriminate.
Qed.

(** The image fallback: with a fallback reference given and a structured
    reference that is nil, or present with no field set, the image converter
    returns a Name-tagged resource carrying the fallback's name. *)
Theorem convertPowerVSImageToMAPI_fallback
    (image : option IBMPowerVSResourceReference.t)
    (imageRef : corev1.LocalObjectReference.t) :
  image = None \/ (exists ref, image = Some ref /\ resolves_no_tag ref) ->
  convertPowerVSImageToMAPI fldPath image (Some imageRef)
  = Ret ({| PowerVSResource.Type_ := PowerVSResourceTypeName;
            PowerVSResource.ID := None;
            PowerVSResource.Name := Some (corev1.LocalObjectReference.Name imageRef);
            PowerVSResource.RegEx := None |}, None).
Proof.
  intros [-> | (ref & -> & H1 & H2 & H3)]; [reflexivity |].
  destruct ref as [i n x]; simpl in *; subst. reflexivity.
Qed.

(** The three outcomes of the image converter: it returns an error exactly
    when both the structured reference and the fallback are nil, it panics
    exactly when the structured reference is present with no field set and
    the fallback is nil, and in every other case it returns a resource with
    exactly one tag and no error. *)
Theorem convertPowerVSImageToMAPI_outcomes
    (image : option IBMPowerVSResourceReference.t)
    (imageRef : option corev1.LocalObjectReference.t) :
  ((exists r err, convertPowerVSImageToMAPI fldPath image imageRef = Ret (r, Some err))
   <-> image = None /\ imageRef = None)
  /\ (convertPowerVSImageToMAPI fldPath image imageRef = Panic
      <-> (exists ref, image = Some ref /\ resolves_no_tag ref) /\ imageRef = None)
  /\ ((exists r, convertPowerVSImageToMAPI fldPath image imageRef = Ret (r, None)
                 /\ exactly_one_tag r)
      <-> (exists ref, image = Some ref /\ ~ resolves_no_tag ref) \/ imageRef <> None).
Proof.
  unfold resolves_no_tag, exactly_one_tag.
  destruct image as [[[i|] [n|] [x|]] |], imageRef as [iref|]; simpl.
  all: split; [| split]; split.
  all: try (intros (r & err & H); discriminate H).
  all: try (intros [H1 H2]; discriminate).
  all: try (intros H; discriminate H).
  all: try (intros [(ref & [= <-] & H1 & H2 & H3) H4]; simpl in *; discriminate).
  all: try (intros (r & H & _); discriminate H).
  all: try (intros _; eexists; split; [reflexivity | simpl; intuition congruence]).
  all: try (intros _; right; discriminate).
  all: try (intros _; left; eexists; split; [reflexivity | simpl; intuition congruence]).
  all: try (intros [(ref & [= <-] & H) | H]; [exfalso; apply H; simpl; auto | congruence]).
  all: try (intros [(ref & H & _) | H]; [discriminate H | congruence]).
  - intros _. split; [eexists; repeat split | reflexivity].
  - intros _. reflexivity.
  - intros _. auto.
  - intros _. eexists. eexists. reflexivity.
Qed.

End ConverterCases.

(** * Further properties of the field mapper *)

Section FieldMapperCases.

Import machineAndPowerVSMachineAndPowerVSCluster.

Lemma zero_not_tagged : ~ exactly_one_tag PowerVSResource.zero.
Proof.
  unfold exactly_one_tag. simpl.
  intros [(H & _) | [(H & _) | (H & _)]]; discriminate H.
Qed.

Lemma network_cases fldPath network :
  (resolves_no_tag network
   /\ fst (convertPowerVSNetworkToMAPI fldPath network) = PowerVSResource.zero)
  \/ (~ resolves_no_tag network
      /\ exactly_one_tag (fst (convertPowerVSNetworkToMAPI fldPath network))).
Proof.
  unfold resolves_no_tag, exactly_one_tag.
  destruct network as [[i|] [n|] [x|]]; simpl;
    first [ left; repeat split; reflexivity
          | right; split; [intros (H1 & H2 & H3); discriminate | intuition congruence] ].
Qed.

Lemma serviceInstance_cases fldPath serviceInstanceID serviceInstance :
  let valid :=
    serviceInstanceID <> ""
    \/ exists ref, serviceInstance = Some ref /\ ~ resolves_no_tag ref in
  (~ valid
   /\ fst (convertPowerVSServiceInstanceToMAPI fldPath serviceInstanceID serviceInstance)
      = PowerVSResource.zero)
  \/ (valid
      /\ exactly_one_tag
           (fst (convertPowerVSServiceInstanceToMAPI fldPath serviceInstanceID
                   serviceInstance))).
Proof.
  unfold convertPowerVSServiceInstanceToMAPI.
  destruct (String.eqb_spec serviceInstanceID "") as [-> | Hne]; simpl.
  - destruct serviceInstance as [ref |].
    + destruct (network_cases fldPath ref) as [[Hno Hz] | [Hyes Ht]];
        destruct ref as [[i|] [n|] [x|]]; simpl in *;
        first [ left; split; [| reflexivity];
                intros [H | (r & [= <-] & H)]; [congruence | contradiction]
              | right; split; [right; eexists; split; [reflexivity | assumption] |];
                unfold exactly_one_tag; simpl; intuition congruence
              | exfalso; apply (zero_not_tagged Ht)
              | discriminate Hz ].
    + left. split; [| reflexivity].
      intros [H | (r & H & _)]; [congruence | discriminate H].
  - right. split; [left; assumption |].
    unfold exactly_one_tag; simpl; intuition congruence.
Qed.

Lemma image_cases fldPath image imageRef r err :
  convertPowerVSImageToMAPI fldPath image imageRef = Ret (r, err) ->
  (image = None /\ imageRef = None /\ r = PowerVSResource.zero)
  \/ (~ (image = None /\ imageRef = None) /\ exactly_one_tag r).
Proof.
  unfold exactly_one_tag.
  destruct image as [[[i|] [n|] [x|]] |], imageRef as [iref|]; simpl;
    intros [= <- <-];
    first [ left; repeat split; reflexivity
          | right; split; [intros [H1 H2]; discriminate | simpl; intuition congruence] ].
Qed.

(** The provider config in terms of the three converters and the machine
    spec it was built from. *)
Lemma toProviderSpec_body_config machine powerVSMachine locals :
  toProviderSpec_body machine powerVSMachine = Ret locals ->
  let spec := IBMPowerVSMachine.Spec powerVSMachine in
  let cfg := toProviderSpec_locals.mapiProviderConfig locals in
  let fldPath := field.NewPath "spec" in
  PowerVSMachineProviderConfig.ServiceInstance cfg
  = fst (convertPowerVSServiceInstanceToMAPI (field.Child fldPath "serviceInstance")
           (IBMPowerVSMachineSpec.ServiceInstanceID spec)
           (IBMPowerVSMachineSpec.ServiceInstance spec))
  /\ (exists err,
        convertPowerVSImageToMAPI (field.Child fldPath "image")
          (IBMPowerVSMachineSpec.Image spec) (IBMPowerVSMachineSpec.ImageRef spec)
        = Ret (PowerVSMachineProviderConfig.Image cfg, err))
  /\ PowerVSMachineProviderConfig.Network cfg
     = fst (convertPowerVSNetworkToMAPI (field.Child fldPath "network")
              (IBMPowerVSMachineSpec.Network spec))
  /\ PowerVSMachineProviderConfig.TypeMeta cfg
     = {| metav1.TypeMeta.Kind := "PowerVSMachineProviderConfig";
          metav1.TypeMeta.APIVersion := "machine.openshift.io/v1" |}
  /\ PowerVSMachineProviderConfig.KeyPairName cfg = IBMPowerVSMachineSpec.SSHKey spec
  /\ PowerVSMachineProviderConfig.SystemType cfg = IBMPowerVSMachineSpec.SystemType spec
  /\ PowerVSMachineProviderConfig.ProcessorType cfg
     = IBMPowerVSMachineSpec.ProcessorType spec
  /\ PowerVSMachineProviderConfig.Processors cfg = IBMPowerVSMachineSpec.Processors spec
  /\ PowerVSMachineProviderConfig.MemoryGiB cfg = IBMPowerVSMachineSpec.MemoryGiB spec
  /\ PowerVSMachineProviderConfig.CredentialsSecret cfg = None.
Proof.
  unfold toProviderSpec_body. intros H.
  destruct (convertPowerVSServiceInstanceToMAPI _ _ _) as [si e1].
  destruct (convertPowerVSNetworkToMAPI _ _) as [nw e3].
  destruct (convertPowerVSImageToMAPI _ _ _) as [[img e2] |]; simpl in H;
    [| discriminate H].
  injection H as <-. simpl.
  destruct (negb _); simpl; repeat split; eauto.
Qed.

(** On a complete triple, every provider config [toProviderSpec] returns is
    stamped with the PowerVS kind and API version and carries the SSH key,
    system type, processor type, processors and memory of the infrastructure
    machine unchanged, with no credentials secret; this holds whether or not
    the references could be resolved. *)
Theorem toProviderSpec_stamp_and_scalars m mc pm pc cfg w e :
  machine m = Some mc -> powerVSMachine m = Some pm -> powerVSCluster m = Some pc ->
  toProviderSpec m = Ret (Some cfg, w, e) ->
  let spec := IBMPowerVSMachine.Spec pm in
  PowerVSMachineProviderConfig.TypeMeta cfg
  = {| metav1.TypeMeta.Kind := "PowerVSMachineProviderConfig";
       metav1.TypeMeta.APIVersion := "machine.openshift.io/v1" |}
  /\ PowerVSMachineProviderConfig.KeyPairName cfg = IBMPowerVSMachineSpec.SSHKey spec
  /\ PowerVSMachineProviderConfig.SystemType cfg = IBMPowerVSMachineSpec.SystemType spec
  /\ PowerVSMachineProviderConfig.ProcessorType cfg
     = IBMPowerVSMachineSpec.ProcessorType spec
  /\ PowerVSMachineProviderConfig.Processors cfg = IBMPowerVSMachineSpec.Processors spec
  /\ PowerVSMachineProviderConfig.MemoryGiB cfg = IBMPowerVSMachineSpec.MemoryGiB spec
  /\ PowerVSMachineProviderConfig.CredentialsSecret cfg = None.
Proof.
  intros H1 H2 H3. rewrite (toProviderSpec_present m mc pm pc H1 H2 H3). intros H.
  destruct (toProviderSpec_body mc pm) as [l|] eqn:E; simpl in H; [| discriminate H].
  injection H as <- _.
  destruct (toProviderSpec_body_config _ _ _ E) as (_ & _ & _ & Hscalars).
  exact Hscalars.
Qed.

(** On a complete triple, each of the three resources of a returned
    provider config has exactly one tag precisely when its input can be
    resolved (a non-empty legacy ID or a structured reference with a field
    set; a structured image or a fallback; a network with a field set), and
    is the zero resource otherwise, while the returned error is nil in both
    cases. *)
Theorem toProviderSpec_resources m mc pm pc cfg w e :
  machine m = Some mc -> powerVSMachine m = Some pm -> powerVSCluster m = Some pc ->
  toProviderSpec m = Ret (Some cfg, w, e) ->
  let spec := IBMPowerVSMachine.Spec pm in
  e = None
  /\ tagged_or_zero
       (IBMPowerVSMachineSpec.ServiceInstanceID spec <> ""
        \/ exists ref,
            IBMPowerVSMachineSpec.ServiceInstance spec = Some ref
            /\ ~ resolves_no_tag ref)
       (PowerVSMachineProviderConfig.ServiceInstance cfg)
  /\ tagged_or_zero
       (~ (IBMPowerVSMachineSpec.Image spec = None
           /\ IBMPowerVSMachineSpec.ImageRef spec = None))
       (PowerVSMachineProviderConfig.Image cfg)
  /\ tagged_or_zero
       (~ resolves_no_tag (IBMPowerVSMachineSpec.Network spec))
       (PowerVSMachineProviderConfig.Network cfg).
Proof.
  intros H1 H2 H3. rewrite (toProviderSpec_present m mc pm pc H1 H2 H3). intros H.
  destruct (toProviderSpec_body mc pm) as [l|] eqn:E; simpl in H; [| discriminate H].
  injection H as <- _ <-.
  destruct (toProviderSpec_body_config _ _ _ E) as (Hsi & (err & Himg) & Hnw & _).
  unfold tagged_or_zero. simpl. split; [reflexivity |]. rewrite Hsi, Hnw.
  split; [| split].
  - destruct (serviceInstance_cases
                (field.Child (field.NewPath "spec") "serviceInstance")
                (IBMPowerVSMachineSpec.ServiceInstanceID (IBMPowerVSMachine.Spec pm))
                (IBMPowerVSMachineSpec.ServiceInstance (IBMPowerVSMachine.Spec pm)))
      as [[Hn Hz] | [Hv Ht]]; [right | left]; auto.
  - destruct (image_cases _ _ _ _ _ Himg) as [(Ha & Hb & Hz) | [Hv Ht]];
      [right | left]; auto.
  - destruct (network_cases (field.Child (field.NewPath "spec") "network")
                (IBMPowerVSMachineSpec.Network (IBMPowerVSMachine.Spec pm)))
      as [[Hn Hz] | [Hv Ht]]; [right | left]; auto.
Qed.

End FieldMapperCases.

(** * Further properties of the assemblers *)

Section AssemblerCases.

Import machineAndPowerVSMachineAndPowerVSCluster.

Variable json_Marshal : PowerVSMachineProviderConfig.t -> list Byte.byte * option error.
Variable fromCAPIMachineToMAPIMachine :
  capiv1.Machine.t -> outcome (option mapiv1beta1.Machine.t * option error).
Variable fromCAPIMachineSetToMAPIMachineSet :
  capiv1.MachineSet.t -> outcome (option mapiv1beta1.MachineSet.t * option error).

(** On a complete triple [toProviderSpec] returns exactly when the image
    conversion does, and then returns a config, no warning and no error. *)
Lemma toProviderSpec_complete m mc pm pc :
  machine m = Some mc -> powerVSMachine m = Some pm -> powerVSCluster m = Some pc ->
  (returns (convertPowerVSImageToMAPI (field.Child (field.NewPath "spec") "image")
              (IBMPowerVSMachineSpec.Image (IBMPowerVSMachine.Spec pm))
              (IBMPowerVSMachineSpec.ImageRef (IBMPowerVSMachine.Spec pm))) = true
   /\ exists cfg, toProviderSpec m = Ret (Some cfg, [], None))
  \/ (returns (convertPowerVSImageToMAPI (field.Child (field.NewPath "spec") "image")
                 (IBMPowerVSMachineSpec.Image (IBMPowerVSMachine.Spec pm))
                 (IBMPowerVSMachineSpec.ImageRef (IBMPowerVSMachine.Spec pm))) = false
      /\ toProviderSpec m = Panic).
Proof.
  intros H1 H2 H3. rewrite (toProviderSpec_present m mc pm pc H1 H2 H3).
  rewrite <- (toProviderSpec_body_returns mc pm).
  destruct (toProviderSpec_body mc pm) as [l|] eqn:E; simpl.
  - left. split; [reflexivity |].
    destruct (toProviderSpec_body_locals _ _ _ E) as [-> _]. eauto.
  - right. split; reflexivity.
Qed.

(** What a machine returned by [ToMachine] on a complete triple is made of. *)
Lemma ToMachine_success_inv m mc pm pc mapiMachine w :
  machine m = Some mc -> powerVSMachine m = Some pm -> powerVSCluster m = Some pc ->
  ToMachine json_Marshal fromCAPIMachineToMAPIMachine m
  = Ret (Some mapiMachine, w, None) ->
  exists skeleton cfg,
    fromCAPIMachineToMAPIMachine mc = Ret (Some skeleton, None)
    /\ toProviderSpec m = Ret (Some cfg, [], None)
    /\ snd (json_Marshal cfg) = None
    /\ mapiMachine
       = mapiv1beta1.Machine.set_Spec_ProviderSpec_Value
           (Some {| runtime.RawExtension.Raw := fst (json_Marshal cfg) |}) skeleton.
Proof.
  intros H1 H2 H3. rewrite (ToMachine_present _ _ m mc pm pc H1 H2 H3). intros H.
  destruct (toProviderSpec_complete m mc pm pc H1 H2 H3)
    as [[_ (cfg & Hcfg)] | [_ Hp]]; [| rewrite Hp in H; discriminate H].
  rewrite Hcfg in H. simpl in H.
  destruct (fromCAPIMachineToMAPIMachine mc) as [[skel e2] |]; simpl in H;
    [| discriminate H].
  exists (default mapiMachine skel), cfg.
  destruct (json_Marshal cfg) as [rawBytes [e3|]]; simpl in H |- *;
    destruct skel as [skel|]; simpl in H; try discriminate H;
    destruct e2 as [e2|]; simpl in H; try discriminate H.
  injection H as <- _. simpl. repeat split; first [reflexivity | exact Hcfg].
Qed.

(** On a complete triple, a machine returned by [ToMachine] is the machine
    the metadata converter built, with nothing changed but the provider
    spec value, which holds the bytes the serializer produced for the config
    of [toProviderSpec]; neither collaborator reported an error. *)
Theorem ToMachine_success m mc pm pc mapiMachine w :
  machine m = Some mc -> powerVSMachine m = Some pm -> powerVSCluster m = Some pc ->
  ToMachine json_Marshal fromCAPIMachineToMAPIMachine m
  = Ret (Some mapiMachine, w, None) ->
  exists skeleton cfg,
    fromCAPIMachineToMAPIMachine mc = Ret (Some skeleton, None)
    /\ toProviderSpec m = Ret (Some cfg, [], None)
    /\ snd (json_Marshal cfg) = None
    /\ mapiv1beta1.ProviderSpec.Value
         (mapiv1beta1.MachineSpec.ProviderSpec (mapiv1beta1.Machine.Spec mapiMachine))
       = Some {| runtime.RawExtension.Raw := fst (json_Marshal cfg) |}
    /\ mapiv1beta1.Machine.ObjectMeta mapiMachine
       = mapiv1beta1.Machine.ObjectMeta skeleton
    /\ mapiv1beta1.MachineSpec.ObjectMeta (mapiv1beta1.Machine.Spec mapiMachine)
       = mapiv1beta1.MachineSpec.ObjectMeta (mapiv1beta1.Machine.Spec skeleton)
    /\ mapiv1beta1.MachineSpec.ProviderID (mapiv1beta1.Machine.Spec mapiMachine)
       = mapiv1beta1.MachineSpec.ProviderID (mapiv1beta1.Machine.Spec skeleton).
Proof.
  intros H1 H2 H3 H.
  destruct (ToMachine_success_inv m mc pm pc mapiMachine w H1 H2 H3 H)
    as (skel & cfg & Hconv & Hcfg & Hjson & ->).
  exists skel, cfg. simpl. repeat split; assumption.
Qed.

(** On a complete triple for which [toProviderSpec] returned a config and
    the metadata converter a machine, [ToMachine] returns no machine as soon
    as the converter or the encoder reported an error, and the error it
    returns is the aggregate of the converter's error followed by the
    encoder's, both kept. *)
Theorem ToMachine_aggregates_errors m mc pm pc cfg skeleton err2 ext err3 :
  machine m = Some mc -> powerVSMachine m = Some pm -> powerVSCluster m = Some pc ->
  toProviderSpec m = Ret (Some cfg, [], None) ->
  fromCAPIMachineToMAPIMachine mc = Ret (Some skeleton, err2) ->
  rawExtensionFromPowerVSProviderSpec json_Marshal (Some cfg) = (ext, err3) ->
  err2 <> None \/ err3 <> None ->
  ToMachine json_Marshal fromCAPIMachineToMAPIMachine m
  = Ret (None, [],
         Some (aggregate (match err2 with Some e => [e] | None => [] end
                          ++ match err3 with Some e => [e] | None => [] end))%list).
Proof.
  intros H1 H2 H3 Hcfg Hconv Hraw Herr.
  rewrite (ToMachine_present _ _ m mc pm pc H1 H2 H3), Hcfg. simpl.
  rewrite Hconv. simpl. simpl in Hraw. rewrite Hraw.
  destruct err2 as [e2|], err3 as [e3|]; simpl; try reflexivity.
  destruct Herr as [H | H]; contradiction.
Qed.

(** On a complete triple [ToMachine] returns, rather than panics, exactly
    when the image conversion returns and the metadata converter returns a
    non-nil machine. *)
Theorem ToMachine_returns_iff m mc pm pc :
  machine m = Some mc -> powerVSMachine m = Some pm -> powerVSCluster m = Some pc ->
  (returns (ToMachine json_Marshal fromCAPIMachineToMAPIMachine m) = true <->
   returns (convertPowerVSImageToMAPI (field.Child (field.NewPath "spec") "image")
              (IBMPowerVSMachineSpec.Image (IBMPowerVSMachine.Spec pm))
              (IBMPowerVSMachineSpec.ImageRef (IBMPowerVSMachine.Spec pm))) = true
   /\ exists skeleton err, fromCAPIMachineToMAPIMachine mc = Ret (Some skeleton, err)).
Proof.
  intros H1 H2 H3. rewrite (ToMachine_present _ _ m mc pm pc H1 H2 H3).
  destruct (toProviderSpec_complete m mc pm pc H1 H2 H3)
    as [[Hr (cfg & Hcfg)] | [Hr Hp]].
  - rewrite Hcfg, Hr. simpl.
    destruct (fromCAPIMachineToMAPIMachine mc) as [[[skel|] e2] |]; simpl.
    + destruct (json_Marshal cfg) as [rawBytes [e3|]]; simpl;
        destruct e2 as [e2|]; simpl; split; eauto.
    + destruct (json_Marshal cfg) as [rawBytes [e3|]]; simpl;
        (split; [discriminate | intros [_ (sk & e & H)]; discriminate H]).
    + split; [discriminate | intros [_ (sk & e & H)]; discriminate H].
  - rewrite Hp, Hr. simpl. split; [discriminate | intros [H _]; discriminate H].
Qed.

(** On a complete input, an error of [ToMachineSet] is an aggregate. *)
Lemma ToMachineSet_error_aggregate m ms t pc inner mapiMachineSet w err :
  machineSetAndPowerVSMachineTemplateAndPowerVSCluster.machineSet m = Some ms ->
  machineSetAndPowerVSMachineTemplateAndPowerVSCluster.template m = Some t ->
  machineSetAndPowerVSMachineTemplateAndPowerVSCluster.powerVSCluster m = Some pc ->
  machineSetAndPowerVSMachineTemplateAndPowerVSCluster.embedded m = Some inner ->
  ToMachineSet json_Marshal fromCAPIMachineToMAPIMachine
    fromCAPIMachineSetToMAPIMachineSet m
  = Ret (mapiMachineSet, w, Some err) ->
  exists errs, err = aggregate errs.
Proof.
  intros H1 H2 H3 H4.
  rewrite (ToMachineSet_present _ _ _ m ms t pc inner H1 H2 H3 H4). intros H.
  destruct (ToMachine json_Marshal fromCAPIMachineToMAPIMachine inner)
    as [[[mm w1] e1] |]; simpl in H; [| discriminate H].
  destruct (fromCAPIMachineSetToMAPIMachineSet ms) as [[[s|] e2] |];
    simpl in H; try discriminate H.
  destruct mm as [mm|]; simpl in H; [| discriminate H].
  destruct (append_if_err (append_if_err [] e1) e2) as [| e errs];
    [discriminate H |].
  injection H as _ _ <-. eauto.
Qed.


(** A machine set returned by [ToMachineSet] is the set the set-level
    metadata converter built, which reported no error: its own metadata, its
    replicas and the name and namespace of its template are unchanged, only
    the template's spec, labels and annotations being replaced. *)
Theorem ToMachineSet_success m ms mapiMachineSet w :
  machineSetAndPowerVSMachineTemplateAndPowerVSCluster.machineSet m = Some ms ->
  ToMachineSet json_Marshal fromCAPIMachineToMAPIMachine
    fromCAPIMachineSetToMAPIMachineSet m
  = Ret (Some mapiMachineSet, w, None) ->
  exists skeleton,
    fromCAPIMachineSetToMAPIMachineSet ms = Ret (Some skeleton, None)
    /\ mapiv1beta1.MachineSet.ObjectMeta mapiMachineSet
       = mapiv1beta1.MachineSet.ObjectMeta skeleton
    /\ mapiv1beta1.MachineSetSpec.Replicas (mapiv1beta1.MachineSet.Spec mapiMachineSet)
       = mapiv1beta1.MachineSetSpec.Replicas (mapiv1beta1.MachineSet.Spec skeleton)
    /\ let meta (s : mapiv1beta1.MachineSet.t) :=
         mapiv1beta1.MachineTemplateSpec.ObjectMeta
           (mapiv1beta1.MachineSetSpec.Template (mapiv1beta1.MachineSet.Spec s)) in
       metav1.ObjectMeta.Name (meta mapiMachineSet)
       = metav1.ObjectMeta.Name (meta skeleton)
       /\ metav1.ObjectMeta.Namespace (meta mapiMachineSet)
          = metav1.ObjectMeta.Namespace (meta skeleton).
Proof.
  intros Hms.
  destruct (quad_cases m) as [(ms' & t & pc & inner & H1 & H2 & H3 & H4) | Habs].
  - assert (ms' = ms) as -> by congruence.
    rewrite (ToMachineSet_present _ _ _ m ms t pc inner H1 H2 H3 H4). intros H.
    destruct (ToMachine json_Marshal fromCAPIMachineToMAPIMachine inner)
      as [[[mm w1] e1] |]; simpl in H; [| discriminate H].
    destruct (fromCAPIMachineSetToMAPIMachineSet ms) as [[[s|] e2] |];
      simpl in H; try discriminate H.
    destruct mm as [mm|]; simpl in H; [| discriminate H].
    destruct e1 as [e1|], e2 as [e2|]; simpl in H; try discriminate H.
    injection H as <- _. exists s. repeat split; reflexivity.
  - rewrite (ToMachineSet_absent _ _ _ m Habs). discriminate.
Qed.

(** On a complete input [ToMachineSet] returns, rather than panics, exactly
    when the embedded [ToMachine] returned a machine and the set-level
    converter a non-nil set; an error it then returns is the one-entry
    aggregate of the set-level converter's error, and comes with no set. *)
Theorem ToMachineSet_returns_iff m ms t pc inner :
  machineSetAndPowerVSMachineTemplateAndPowerVSCluster.machineSet m = Some ms ->
  machineSetAndPowerVSMachineTemplateAndPowerVSCluster.template m = Some t ->
  machineSetAndPowerVSMachineTemplateAndPowerVSCluster.powerVSCluster m = Some pc ->
  machineSetAndPowerVSMachineTemplateAndPowerVSCluster.embedded m = Some inner ->
  (returns (ToMachineSet json_Marshal fromCAPIMachineToMAPIMachine
              fromCAPIMachineSetToMAPIMachineSet m) = true <->
   (exists mapiMachine w,
       ToMachine json_Marshal fromCAPIMachineToMAPIMachine inner
       = Ret (Some mapiMachine, w, None))
   /\ exists skeleton err,
       fromCAPIMachineSetToMAPIMachineSet ms = Ret (Some skeleton, err))
  /\ (forall mapiMachineSet w err,
        ToMachineSet json_Marshal fromCAPIMachineToMAPIMachine
          fromCAPIMachineSetToMAPIMachineSet m
        = Ret (mapiMachineSet, w, Some err) ->
        mapiMachineSet = None
        /\ exists skeleton err2,
            fromCAPIMachineSetToMAPIMachineSet ms = Ret (Some skeleton, Some err2)
            /\ err = aggregate [err2]).
Proof.
  intros H1 H2 H3 H4.
  rewrite (ToMachineSet_present _ _ _ m ms t pc inner H1 H2 H3 H4).
  destruct (ToMachine json_Marshal fromCAPIMachineToMAPIMachine inner)
    as [[[mm w1] e1] |] eqn:Em; simpl.
  - destruct (ToMachine_result _ _ _ _ _ _ Em) as [-> Hnil].
    destruct (fromCAPIMachineSetToMAPIMachineSet ms) as [[[s|] e2] |]; simpl.
    + destruct mm as [mm|]; simpl.
      * destruct e1 as [e1|]; [exfalso; destruct Hnil as [_ Hn];
                               discriminate (Hn ltac:(discriminate)) |].
        destruct e2 as [e2|]; simpl; split;
          try (split; [eauto 10 | reflexivity]);
          try (intros s' w' err [= <- <- <-]; eauto 10);
          try (intros s' w' err H; discriminate H).
      * split; [split; [discriminate | intros [(x & y & H) _]; discriminate H] |].
        intros s' w' err H; discriminate H.
    + split; [split; [destruct mm; discriminate
                     | intros [_ (x & y & H)]; discriminate H] |].
      intros s' w' err H; destruct mm; discriminate H.
    + split; [split; [discriminate | intros [_ (x & y & H)]; discriminate H] |].
      intros s' w' err H; discriminate H.
  - split; [split; [discriminate | intros [(x & y & H) _]; discriminate H] |].
    intros s' w' err H; discriminate H.
Qed.

(** The set constructor panics exactly when the machine set or the template
    is nil, so the wrapper it returns always has a machine set, a template
    and an embedded view with a machine and an infrastructure machine; on
    such a wrapper [ToMachineSet] returns its precondition error exactly
    when the cluster is nil. *)
Theorem constructed_set_precondition ms mts pc :
  (FromMachineSetAndPowerVSMachineTemplateAndPowerVSCluster ms mts pc = Panic
   <-> ms = None \/ mts = None)
  /\ (forall m,
        FromMachineSetAndPowerVSMachineTemplateAndPowerVSCluster ms mts pc = Ret m ->
        machineSetAndPowerVSMachineTemplateAndPowerVSCluster.machineSet m = ms
        /\ ms <> None
        /\ machineSetAndPowerVSMachineTemplateAndPowerVSCluster.template m = mts
        /\ mts <> None
        /\ (exists inner mc pm,
              machineSetAndPowerVSMachineTemplateAndPowerVSCluster.embedded m
              = Some inner
              /\ machine inner = Some mc /\ powerVSMachine inner = Some pm
              /\ powerVSCluster inner = pc)
        /\ (ToMachineSet json_Marshal fromCAPIMachineToMAPIMachine
              fromCAPIMachineSetToMAPIMachineSet m
            = Ret (None, [],
                   Some errCAPIMachineSetPowerVSMachineTemplatePowerVSClusterCannotBeNil)
            <-> pc = None)).
Proof.
  unfold FromMachineSetAndPowerVSMachineTemplateAndPowerVSCluster.
  destruct ms as [ms'|], mts as [mts'|]; simpl; split;
    try (intros m H; discriminate H);
    try (split; [auto | reflexivity]).
  - split; [intros H; discriminate H | intros [H | H]; discriminate H].
  - intros m [= <-]. simpl. repeat split; try discriminate; eauto 10.
    + intros H. destruct pc as [pc'|]; [| reflexivity]. exfalso.
      destruct (ToMachineSet_error_aggregate
                  (machineSetWrapper ms' mts' (Some pc')) _ _ _ _ _ _ _
                  eq_refl eq_refl eq_refl eq_refl H) as [errs Hagg].
      discriminate Hagg.
    + intros ->. reflexivity.
Qed.

(** The set path end to end: when [ToMachineSet] returns a machine set for
    a wrapper built by the set constructor, the provider spec value of the
    set's template holds the bytes the serializer produced for a config that
    is stamped with the PowerVS kind and carries the SSH key, system type,
    processor type, processors and memory of the machine template. *)
Theorem constructed_set_payload ms mts pc m mapiMachineSet w :
  FromMachineSetAndPowerVSMachineTemplateAndPowerVSCluster (Some ms) (Some mts) pc
  = Ret m ->
  ToMachineSet json_Marshal fromCAPIMachineToMAPIMachine
    fromCAPIMachineSetToMAPIMachineSet m
  = Ret (Some mapiMachineSet, w, None) ->
  exists cfg,
    let infra :=
      IBMPowerVSMachineTemplateResource.Spec
        (IBMPowerVSMachineTemplateSpec.Template (IBMPowerVSMachineTemplate.Spec mts)) in
    mapiv1beta1.ProviderSpec.Value
      (mapiv1beta1.MachineSpec.ProviderSpec
         (mapiv1beta1.MachineTemplateSpec.Spec
            (mapiv1beta1.MachineSetSpec.Template
               (mapiv1beta1.MachineSet.Spec mapiMachineSet))))
    = Some {| runtime.RawExtension.Raw := fst (json_Marshal cfg) |}
    /\ snd (json_Marshal cfg) = None
    /\ PowerVSMachineProviderConfig.TypeMeta cfg
       = {| metav1.TypeMeta.Kind := "PowerVSMachineProviderConfig";
            metav1.TypeMeta.APIVersion := "machine.openshift.io/v1" |}
    /\ PowerVSMachineProviderConfig.KeyPairName cfg = IBMPowerVSMachineSpec.SSHKey infra
    /\ PowerVSMachineProviderConfig.SystemType cfg
       = IBMPowerVSMachineSpec.SystemType infra
    /\ PowerVSMachineProviderConfig.ProcessorType cfg
       = IBMPowerVSMachineSpec.ProcessorType infra
    /\ PowerVSMachineProviderConfig.Processors cfg
       = IBMPowerVSMachineSpec.Processors infra
    /\ PowerVSMachineProviderConfig.MemoryGiB cfg
       = IBMPowerVSMachineSpec.MemoryGiB infra.
Proof.
  intros [= <-] H.
  destruct pc as [pc'|]; [| discriminate H].
  rewrite (ToMachineSet_present _ _ _ (machineSetWrapper ms mts (Some pc'))
             ms mts pc' _ eq_refl eq_refl eq_refl eq_refl) in H.
  match type of H with
  | context [ToMachine _ _ ?v] => set (inner := v) in *
  end.
  destruct (ToMachine json_Marshal fromCAPIMachineToMAPIMachine inner)
    as [[[mm w1] e1] |] eqn:Em; simpl in H; [| discriminate H].
  destruct (fromCAPIMachineSetToMAPIMachineSet ms) as [[[s|] e2] |];
    simpl in H; try discriminate H.
  destruct mm as [mm|]; simpl in H; [| discriminate H].
  destruct e1 as [e1|], e2 as [e2|]; simpl in H; try discriminate H.
  injection H as <- _.
  destruct (ToMachine_success_inv inner _ _ pc' mm w1 eq_refl eq_refl eq_refl Em)
    as (skel & cfg & _ & Hcfg & Hjson & ->).
  exists cfg. simpl. split; [reflexivity |]. split; [exact Hjson |].
  rewrite (toProviderSpec_present inner _ _ pc' eq_refl eq_refl eq_refl) in Hcfg.
  match type of Hcfg with
  | context [toProviderSpec_body ?a ?b] =>
      destruct (toProviderSpec_body a b) as [l|] eqn:E; simpl in Hcfg;
      [| discriminate Hcfg]
  end.
  injection Hcfg as <- _.
  destruct (toProviderSpec_body_config _ _ _ E)
    as (_ & _ & _ & Ht & Hk & Hs & Hp & Hpr & Hm & _).
  simpl in Hk, Hs, Hp, Hpr, Hm. repeat split; assumption.
Qed.

End AssemblerCases.

(** ** Runs of the further properties on the sample inputs *)

Lemma convertPowerVSNetworkToMAPI_error_iff_witness :
  convertPowerVSNetworkToMAPI (field.Child (field.NewPath "spec") "network")
    Samples.noReference
  = (PowerVSResource.zero,
     Some {| field.Error.Type_ := field.ErrorTypeInvalid;
             field.Error.Field := "spec.network";
             field.Error.BadValue_ := field.ReferenceValue Samples.noReference;
             field.Error.Detail := "unable to convert network to MAPI" |})
  /\ snd (convertPowerVSNetworkToMAPI (field.Child (field.NewPath "spec") "network")
            (Samples.byName "net")) = None.
Proof.
  split.
  - apply (proj1 (convertPowerVSNetworkToMAPI_error_iff
                    (field.Child (field.NewPath "spec") "network")
                    Samples.noReference)).
    repeat split; reflexivity.
  - apply (proj2 (convertPowerVSNetworkToMAPI_error_iff
                    (field.Child (field.NewPath "spec") "network")
                    (Samples.byName "net"))).
    intros (_ & H & _). discriminate H.
Defined.

Lemma converters_agree_on_reference_witness :
  convertPowerVSImageToMAPI (field.Child (field.NewPath "spec") "image")
    (Some (Samples.byName "rhel"))
    (Some {| corev1.LocalObjectReference.Name := "other" |})
  = Ret ({| PowerVSResource.Type_ := "Name"; PowerVSResource.ID := None;
            PowerVSResource.Name := Some "rhel"; PowerVSResource.RegEx := None |},
         None).
Proof.
  apply (proj2 (proj2 (converters_agree_on_reference
                         (field.Child (field.NewPath "spec") "image")
                         (field.Child (field.NewPath "spec") "network")
                         (Samples.byName "rhel")
                         (Some {| corev1.LocalObjectReference.Name := "other" |})))).
  intros (_ & H & _). discriminate H.
Defined.

Lemma convertPowerVSServiceInstanceToMAPI_error_iff_witness :
  snd (convertPowerVSServiceInstanceToMAPI
         (field.Child (field.NewPath "spec") "serviceInstance") ""
         (Some Samples.noReference)) <> None
  /\ fst (convertPowerVSServiceInstanceToMAPI
            (field.Child (field.NewPath "spec") "serviceInstance") "" None)
     = PowerVSResource.zero.
Proof.
  split.
  - apply (proj1 (convertPowerVSServiceInstanceToMAPI_error_iff
                    (field.Child (field.NewPath "spec") "serviceInstance") ""
                    (Some Samples.noReference))).
    split; [reflexivity |]. right. exists Samples.noReference.
    repeat split; reflexivity.
  - eapply (proj2 (convertPowerVSServiceInstanceToMAPI_error_iff
                     (field.Child (field.NewPath "spec") "serviceInstance") "" None)).
    reflexivity.
Defined.

Lemma convertPowerVSImageToMAPI_fallback_witness :
  convertPowerVSImageToMAPI (field.Child (field.NewPath "spec") "image")
    (Some Samples.noReference)
    (Some {| corev1.LocalObjectReference.Name := "rhel-image" |})
  = Ret ({| PowerVSResource.Type_ := "Name"; PowerVSResource.ID := None;
            PowerVSResource.Name := Some "rhel-image";
            PowerVSResource.RegEx := None |}, None).
Proof.
  apply (convertPowerVSImageToMAPI_fallback
           (field.Child (field.NewPath "spec") "image")
           (Some Samples.noReference)
           {| corev1.LocalObjectReference.Name := "rhel-image" |}).
  right. exists Samples.noReference. repeat split; reflexivity.
Defined.

Lemma convertPowerVSImageToMAPI_outcomes_witness :
  (exists r err,
      convertPowerVSImageToMAPI (field.NewPath "image") None None = Ret (r, Some err))
  /\ ~ (convertPowerVSImageToMAPI (field.NewPath "image") None
          (Some {| corev1.LocalObjectReference.Name := "rhel-image" |}) = Panic)
  /\ (exists r,
        convertPowerVSImageToMAPI (field.NewPath "image")
          (Some (Samples.byID "img-1")) None = Ret (r, None)
        /\ exactly_one_tag r).
Proof.
  split; [| split].
  - apply (proj1 (convertPowerVSImageToMAPI_outcomes (field.NewPath "image") None None)).
    split; reflexivity.
  - intros H.
    apply (proj1 (proj2 (convertPowerVSImageToMAPI_outcomes (field.NewPath "image") None
                           (Some {| corev1.LocalObjectReference.Name := "rhel-image" |}))))
      in H.
    destruct H as [_ H]. discriminate H.
  - apply (proj2 (proj2 (convertPowerVSImageToMAPI_outcomes (field.NewPath "image")
                           (Some (Samples.byID "img-1")) None))).
    left. exists (Samples.byID "img-1"). split; [reflexivity |].
    intros (H & _). discriminate H.
Defined.

Lemma toProviderSpec_stamp_and_scalars_witness :
  exists cfg,
    toProviderSpec (Samples.triple None Samples.invalidSpec) = Ret (Some cfg, [], None)
    /\ metav1.TypeMeta.Kind (PowerVSMachineProviderConfig.TypeMeta cfg)
       = "PowerVSMachineProviderConfig"
    /\ PowerVSMachineProviderConfig.KeyPairName cfg = "key"
    /\ PowerVSMachineProviderConfig.MemoryGiB cfg = 32%Z.
Proof.
  evar (cfg : PowerVSMachineProviderConfig.t).
  assert (H : toProviderSpec (Samples.triple None Samples.invalidSpec)
              = Ret (Some cfg, [], None))
    by (subst cfg; vm_compute; reflexivity).
  exists cfg. split; [exact H |].
  destruct (toProviderSpec_stamp_and_scalars
              (Samples.triple None Samples.invalidSpec) _ _ _ _ _ _
              eq_refl eq_refl eq_refl H)
    as (Ht & Hk & _ & _ & _ & Hm & _).
  split; [rewrite Ht; reflexivity | split; [exact Hk | exact Hm]].
Defined.

Lemma toProviderSpec_resources_witness :
  (exists cfg,
      toProviderSpec (Samples.triple None Samples.invalidSpec)
      = Ret (Some cfg, [], None)
      /\ PowerVSMachineProviderConfig.Network cfg = PowerVSResource.zero)
  /\ (exists cfg,
        toProviderSpec (Samples.triple None Samples.validSpec)
        = Ret (Some cfg, [], None)
        /\ exactly_one_tag (PowerVSMachineProviderConfig.Network cfg)).
Proof.
  split.
  - evar (cfg : PowerVSMachineProviderConfig.t).
    assert (H : toProviderSpec (Samples.triple None Samples.invalidSpec)
                = Ret (Some cfg, [], None))
      by (subst cfg; vm_compute; reflexivity).
    exists cfg. split; [exact H |].
    destruct (toProviderSpec_resources
                (Samples.triple None Samples.invalidSpec) _ _ _ _ _ _
                eq_refl eq_refl eq_refl H)
      as (_ & _ & _ & [[Hv _] | [_ Hz]]); [| exact Hz].
    exfalso. apply Hv. repeat split; reflexivity.
  - evar (cfg : PowerVSMachineProviderConfig.t).
    assert (H : toProviderSpec (Samples.triple None Samples.validSpec)
                = Ret (Some cfg, [], None))
      by (subst cfg; vm_compute; reflexivity).
    exists cfg. split; [exact H |].
    destruct (toProviderSpec_resources
                (Samples.triple None Samples.validSpec) _ _ _ _ _ _
                eq_refl eq_refl eq_refl H)
      as (_ & _ & _ & [[_ Ht] | [Hn _]]); [exact Ht |].
    exfalso. apply Hn. intros (Hid & _). discriminate Hid.
Defined.

Lemma ToMachine_success_witness :
  exists mapiMachine,
    ToMachine Samples.marshal Samples.convertMachine
      (Samples.triple (Some "secret") Samples.validSpec)
    = Ret (Some mapiMachine, [], None)
    /\ mapiv1beta1.ProviderSpec.Value
         (mapiv1beta1.MachineSpec.ProviderSpec (mapiv1beta1.Machine.Spec mapiMachine))
       = Some {| runtime.RawExtension.Raw := [Byte.x7b; Byte.x7d] |}
    /\ metav1.ObjectMeta.Name (mapiv1beta1.Machine.ObjectMeta mapiMachine) = "worker-0".
Proof.
  evar (mapiMachine : mapiv1beta1.Machine.t).
  assert (H : ToMachine Samples.marshal Samples.convertMachine
                (Samples.triple (Some "secret") Samples.validSpec)
              = Ret (Some mapiMachine, [], None))
    by (subst mapiMachine; vm_compute; reflexivity).
  exists mapiMachine. split; [exact H |].
  destruct (ToMachine_success Samples.marshal Samples.convertMachine
              (Samples.triple (Some "secret") Samples.validSpec) _ _ _ _ _
              eq_refl eq_refl eq_refl H)
    as (skel & cfg & Hconv & _ & _ & Hv & Hmeta & _).
  split; [exact Hv |].
  rewrite Hmeta. injection Hconv as <-. reflexivity.
Defined.

Lemma ToMachine_aggregates_errors_witness :
  ToMachine Samples.marshal_failing Samples.convertMachine_failing
    (Samples.triple None Samples.validSpec)
  = Ret (None, [],
         Some (aggregate
                 [errors_New "machine metadata can not be converted";
                  fmt_Errorf_w "error marshalling providerSpec"
                    (errors_New "json: unsupported value")])).
Proof.
  eapply (ToMachine_aggregates_errors Samples.marshal_failing
            Samples.convertMachine_failing
            (Samples.triple None Samples.validSpec) _ _ _ _ _
            (Some (errors_New "machine metadata can not be converted")) _
            (Some (fmt_Errorf_w "error marshalling providerSpec"
                     (errors_New "json: unsupported value")))).
  - reflexivity.
  - reflexivity.
  - reflexivity.
  - vm_compute. reflexivity.
  - vm_compute. reflexivity.
  - vm_compute. reflexivity.
  - left. discriminate.
Defined.

Lemma ToMachine_returns_iff_witness :
  returns (ToMachine Samples.marshal_failing Samples.convertMachine
             (Samples.triple None Samples.invalidSpec)) = true.
Proof.
  apply (proj2 (ToMachine_returns_iff Samples.marshal_failing Samples.convertMachine
                  (Samples.triple None Samples.invalidSpec)
                  (Samples.machine None) (Samples.powerVSMachine Samples.invalidSpec)
                  Samples.powerVSCluster eq_refl eq_refl eq_refl)).
  split; [reflexivity |]. eexists. eexists. reflexivity.
Defined.


Lemma ToMachineSet_success_witness :
  exists mapiMachineSet,
    ToMachineSet Samples.marshal Samples.convertMachine Samples.convertMachineSet
      (Samples.setOf None Samples.validSpec)
    = Ret (Some mapiMachineSet, [], None)
    /\ metav1.ObjectMeta.Name (mapiv1beta1.MachineSet.ObjectMeta mapiMachineSet)
       = "worker-0"
    /\ mapiv1beta1.MachineSetSpec.Replicas (mapiv1beta1.MachineSet.Spec mapiMachineSet)
       = Some 3%Z.
Proof.
  evar (mapiMachineSet : mapiv1beta1.MachineSet.t).
  assert (H : ToMachineSet Samples.marshal Samples.convertMachine
                Samples.convertMachineSet (Samples.setOf None Samples.validSpec)
              = Ret (Some mapiMachineSet, [], None))
    by (subst mapiMachineSet; vm_compute; reflexivity).
  exists mapiMachineSet. split; [exact H |].
  destruct (ToMachineSet_success Samples.marshal Samples.convertMachine
              Samples.convertMachineSet (Samples.setOf None Samples.validSpec)
              (Samples.machineSet None) _ _ eq_refl H)
    as (skel & Hconv & Hmeta & Hrep & _).
  rewrite Hmeta, Hrep. injection Hconv as <-. split; reflexivity.
Defined.

Lemma ToMachineSet_returns_iff_witness :
  returns (ToMachineSet Samples.marshal Samples.convertMachine
             Samples.convertMachineSet (Samples.setOf None Samples.validSpec)) = true.
Proof.
  eapply (proj1 (ToMachineSet_returns_iff Samples.marshal Samples.convertMachine
                   Samples.convertMachineSet (Samples.setOf None Samples.validSpec)
                   _ _ _ _ eq_refl eq_refl eq_refl eq_refl)).
  split.
  - eexists. eexists. vm_compute. reflexivity.
  - eexists. eexists. reflexivity.
Defined.

Lemma constructed_set_precondition_witness :
  FromMachineSetAndPowerVSMachineTemplateAndPowerVSCluster
    None (Some (Samples.machineTemplate Samples.validSpec)) (Some Samples.powerVSCluster)
  = Panic
  /\ ToMachineSet Samples.marshal Samples.convertMachine Samples.convertMachineSet
       (machineSetWrapper (Samples.machineSet None)
          (Samples.machineTemplate Samples.validSpec) None)
     = Ret (None, [],
            Some errCAPIMachineSetPowerVSMachineTemplatePowerVSClusterCannotBeNil).
Proof.
  split.
  - apply (proj1 (constructed_set_precondition Samples.marshal Samples.convertMachine
                    Samples.convertMachineSet None
                    (Some (Samples.machineTemplate Samples.validSpec))
                    (Some Samples.powerVSCluster))).
    left. reflexivity.
  - destruct (proj2 (constructed_set_precondition Samples.marshal
                       Samples.convertMachine Samples.convertMachineSet
                       (Some (Samples.machineSet None))
                       (Some (Samples.machineTemplate Samples.validSpec)) None)
                _ eq_refl) as (_ & _ & _ & _ & _ & Hiff).
    apply Hiff. reflexivity.
Defined.

Lemma constructed_set_payload_witness :
  exists mapiMachineSet cfg,
    ToMachineSet Samples.marshal Samples.convertMachine Samples.convertMachineSet
      (Samples.setOf (Some "secret") Samples.validSpec)
    = Ret (Some mapiMachineSet, [], None)
    /\ mapiv1beta1.ProviderSpec.Value
         (mapiv1beta1.MachineSpec.ProviderSpec
            (mapiv1beta1.MachineTemplateSpec.Spec
               (mapiv1beta1.MachineSetSpec.Template
                  (mapiv1beta1.MachineSet.Spec mapiMachineSet))))
       = Some {| runtime.RawExtension.Raw := fst (Samples.marshal cfg) |}
    /\ PowerVSMachineProviderConfig.KeyPairName cfg = "key".
Proof.
  evar (mapiMachineSet : mapiv1beta1.MachineSet.t).
  assert (H : ToMachineSet Samples.marshal Samples.convertMachine
                Samples.convertMachineSet
                (Samples.setOf (Some "secret") Samples.validSpec)
              = Ret (Some mapiMachineSet, [], None))
    by (subst mapiMachineSet; vm_compute; reflexivity).
  destruct (constructed_set_payload Samples.marshal Samples.convertMachine
              Samples.convertMachineSet (Samples.machineSet (Some "secret"))
              (Samples.machineTemplate Samples.validSpec) (Some Samples.powerVSCluster)
              _ _ _ eq_refl H) as (cfg & Hv & _ & _ & Hk & _).
  exists mapiMachineSet, cfg. split; [exact H |]. split; [exact Hv | exact Hk].
Defined.
